(** * Throughput / MFU derivations of nlp-benchmarking

    A shallow embedding of the numeric core of the repository:

    - [train.py]: [TrainingArgs.__post_init__] (fraction-or-count
      schedule values) and the "Calculate training constants" block of
      [main] (training goal, warmup, validation and checkpoint cadence
      converted into step counts);
    - [src/compute_mfu.py]: the offline script that reads runs from the
      experiment-tracking store, derives the theoretical peak throughput
      and the MFU, and writes both back.

    Numbers.  Python [int] is [Z].  Python [float] is modelled by the
    exact rational it denotes ([Q], compared with [==]); the rounding of
    binary64 arithmetic is outside the model, so an equation proved here
    is the equation the floating-point code approximates.  [int(x)]
    truncates towards zero and [/] is true division, which raises
    [ZeroDivisionError] on a zero divisor.  At the inputs the examples
    name, [Binary64Check] evaluates the same expressions with primitive
    floats. *)

From Stdlib Require Import ZArith QArith Qround Qabs Lia Lqa String List.
From Stdlib Require PrimFloat FloatOps SpecFloat Uint63.
From stdpp Require Import gmap strings pretty.

Open Scope string_scope.
Open Scope list_scope.
Open Scope Z_scope.

(** * The programs *)

(** ** Python values and exceptions *)

Module Py.

Inductive PyError : Type :=
  | ValueError (msg : string)
  | TypeError
  | ZeroDivisionError
  | KeyError (key : string)
  | ConfigError (field : string)
  | CommError.

Inductive result (A : Type) : Type :=
  | Ok (a : A)
  | Raise (e : PyError).
Arguments Ok {A} a.
Arguments Raise {A} e.

#[global] Instance result_ret : MRet result := @Ok.
#[global] Instance result_bind : MBind result := fun A B k m =>
  match m with
  | Ok a => k a
  | Raise e => Raise e
  end.

Definition raises {A} (m : result A) : Prop :=
  match m with Ok _ => False | Raise _ => True end.

(** [x < y] on floats and ints. *)
Definition lt (x y : Q) : bool := negb (Qle_bool y x).

(** [int(x)]: truncation towards zero. *)
Definition int (x : Q) : Z := Z.quot (Qnum x) (Z.pos (Qden x)).

(** [a / b]; [b] may be [None]. *)
Definition truediv (a : Q) (b : option Q) : result Q :=
  match b with
  | None => Raise TypeError
  | Some b => if Qeq_bool b 0 then Raise ZeroDivisionError else Ok (a / b)%Q
  end.

(** [a * b] where [a] may be [None]. *)
Definition mul_opt (a : option Z) (b : Z) : result Z :=
  match a with
  | None => Raise TypeError
  | Some a => Ok (a * b)
  end.

End Py.
Import Py.

(** ** train.py: [TrainingArgs] *)

(** The fields of the dataclass that the schedule derivation reads or
    writes.  [val_frequency], [model_log_frequency] and [lr_warmup] are
    declared [float] and are overwritten with [int]s; both are [Q]
    here. *)
Record TrainingArgs : Type := {
  max_sequence_length : Z;
  num_devices : Z;
  training_goal : Z;
  training_goal_unit : string;
  val_frequency : Q;
  model_log_frequency : Q;
  batch_size_per_device : Z;
  effective_batch_size : option Z;
  lr_warmup : Q;
  gradient_accumulation_steps : Z
}.

Definition set_num_devices (v : Z) (a : TrainingArgs) : TrainingArgs :=
  {| max_sequence_length := max_sequence_length a;
     num_devices := v;
     training_goal := training_goal a;
     training_goal_unit := training_goal_unit a;
     val_frequency := val_frequency a;
     model_log_frequency := model_log_frequency a;
     batch_size_per_device := batch_size_per_device a;
     effective_batch_size := effective_batch_size a;
     lr_warmup := lr_warmup a;
     gradient_accumulation_steps := gradient_accumulation_steps a |}.

Definition set_training_goal (v : Z) (a : TrainingArgs) : TrainingArgs :=
  {| max_sequence_length := max_sequence_length a;
     num_devices := num_devices a;
     training_goal := v;
     training_goal_unit := training_goal_unit a;
     val_frequency := val_frequency a;
     model_log_frequency := model_log_frequency a;
     batch_size_per_device := batch_size_per_device a;
     effective_batch_size := effective_batch_size a;
     lr_warmup := lr_warmup a;
     gradient_accumulation_steps := gradient_accumulation_steps a |}.

Definition set_val_frequency (v : Q) (a : TrainingArgs) : TrainingArgs :=
  {| max_sequence_length := max_sequence_length a;
     num_devices := num_devices a;
     training_goal := training_goal a;
     training_goal_unit := training_goal_unit a;
     val_frequency := v;
     model_log_frequency := model_log_frequency a;
     batch_size_per_device := batch_size_per_device a;
     effective_batch_size := effective_batch_size a;
     lr_warmup := lr_warmup a;
     gradient_accumulation_steps := gradient_accumulation_steps a |}.

Definition set_model_log_frequency (v : Q) (a : TrainingArgs) : TrainingArgs :=
  {| max_sequence_length := max_sequence_length a;
     num_devices := num_devices a;
     training_goal := training_goal a;
     training_goal_unit := training_goal_unit a;
     val_frequency := val_frequency a;
     model_log_frequency := v;
     batch_size_per_device := batch_size_per_device a;
     effective_batch_size := effective_batch_size a;
     lr_warmup := lr_warmup a;
     gradient_accumulation_steps := gradient_accumulation_steps a |}.

Definition set_lr_warmup (v : Q) (a : TrainingArgs) : TrainingArgs :=
  {| max_sequence_length := max_sequence_length a;
     num_devices := num_devices a;
     training_goal := training_goal a;
     training_goal_unit := training_goal_unit a;
     val_frequency := val_frequency a;
     model_log_frequency := model_log_frequency a;
     batch_size_per_device := batch_size_per_device a;
     effective_batch_size := effective_batch_size a;
     lr_warmup := v;
     gradient_accumulation_steps := gradient_accumulation_steps a |}.

Definition set_batch_plan (ebs gas : Z) (a : TrainingArgs) : TrainingArgs :=
  {| max_sequence_length := max_sequence_length a;
     num_devices := num_devices a;
     training_goal := training_goal a;
     training_goal_unit := training_goal_unit a;
     val_frequency := val_frequency a;
     model_log_frequency := model_log_frequency a;
     batch_size_per_device := batch_size_per_device a;
     effective_batch_size := Some ebs;
     lr_warmup := lr_warmup a;
     gradient_accumulation_steps := gas |}.

(** [TrainingArgs.__post_init__], lines 196-201: a schedule value below
    1 is a fraction of [training_goal] and is replaced by the absolute
    count.  (The rest of the method sets [num_devices] from
    [cuda_device_ids] and [preprocessing_workers] from the environment.) *)
Definition __post_init__ (self : TrainingArgs) : TrainingArgs :=
  let self :=
    if Py.lt (val_frequency self) 1
    then set_val_frequency
           (inject_Z (Py.int (inject_Z (training_goal self) * val_frequency self))) self
    else self in
  let self :=
    if Py.lt (model_log_frequency self) 1
    then set_model_log_frequency
           (inject_Z (Py.int (inject_Z (training_goal self) * model_log_frequency self))) self
    else self in
  let self :=
    if Py.lt (lr_warmup self) 1
    then set_lr_warmup
           (inject_Z (Py.int (inject_Z (training_goal self) * lr_warmup self))) self
    else self in
  self.

(** ** train.py: [main], "Calculate training constants" *)

(** Lines 327-337: the two divisors, by training-goal unit.
    [goal_units_per_optimizer_step] is [None] when
    [args.effective_batch_size] is. *)
Definition goal_units (args : TrainingArgs) (effective_batch_size_per_step : Z)
  : result (option Q * Q) :=
  if String.eqb (training_goal_unit args) "samples" then
    Ok (option_map inject_Z (effective_batch_size args),
        inject_Z effective_batch_size_per_step)
  else if String.eqb (training_goal_unit args) "tokens" then
    per_opt ← Py.mul_opt (effective_batch_size args) (max_sequence_length args);
    Ok (Some (inject_Z per_opt),
        inject_Z (effective_batch_size_per_step * max_sequence_length args))
  else if String.eqb (training_goal_unit args) "optimizer-steps" then
    per_fwd ← Py.truediv 1 (Some (inject_Z (gradient_accumulation_steps args)));
    Ok (Some 1%Q, per_fwd)
  else
    Raise (ValueError ("Unknown training goal unit: " +:+ training_goal_unit args)).

(** Lines 327-346.  Returns the updated [args] together with the local
    [val_frequency_in_optimization_steps]. *)
Definition calculate_training_constants
    (args : TrainingArgs) (effective_batch_size_per_step : Z)
  : result (TrainingArgs * Z) :=
  units ← goal_units args effective_batch_size_per_step;
  let goal_units_per_optimizer_step := fst units in
  let goal_units_per_forward_pass := snd units in
  q ← Py.truediv (inject_Z (training_goal args)) goal_units_per_optimizer_step;
  let args := set_training_goal (Py.int q) args in
  q ← Py.truediv (val_frequency args) goal_units_per_optimizer_step;
  let val_frequency_in_optimization_steps := Py.int q in
  q ← Py.truediv (val_frequency args) (Some goal_units_per_forward_pass);
  let args := set_val_frequency (inject_Z (Py.int q)) args in
  q ← Py.truediv (model_log_frequency args) goal_units_per_optimizer_step;
  let args := set_model_log_frequency (inject_Z (Py.int q)) args in
  q ← Py.truediv (lr_warmup args) goal_units_per_optimizer_step;
  let args := set_lr_warmup (inject_Z (Py.int q)) args in
  Ok (args, val_frequency_in_optimization_steps).

(** Modelled from the spec: [handle_batch_size_logic_] of
    src/helpers.py, which [main] calls at line 304 and which is not part
    of the sources.  Section 4.2 (BatchSizeResolver): a non-positive
    device count or per-device batch size is a [ConfigError]; without a
    requested effective batch size the accumulation count is 1;
    otherwise it is [ceil(requested / (per_device * device_count))],
    at least 1; the realized effective batch size is recomputed as
    [per_device * device_count * gradient_accumulation_steps].  The
    function updates [args] in place: the derived accumulation count and
    the realized effective batch size are what [main] reads back from
    [args.gradient_accumulation_steps] and [args.effective_batch_size]
    (section 4.1 names the latter [realized_effective_batch_size]); the
    value returned is the batch consumed by one forward pass,
    [realized / gradient_accumulation_steps]. *)
Definition handle_batch_size_logic_ (args : TrainingArgs)
  : result (TrainingArgs * Z) :=
  if (num_devices args <=? 0) then Raise (ConfigError "num_devices")
  else if (batch_size_per_device args <=? 0) then
    Raise (ConfigError "batch_size_per_device")
  else
    let per_forward_pass := batch_size_per_device args * num_devices args in
    let accumulation :=
      match effective_batch_size args with
      | None => 1
      | Some requested =>
          Z.max 1 (Qceiling (inject_Z requested / inject_Z per_forward_pass))
      end in
    Ok (set_batch_plan (per_forward_pass * accumulation) accumulation args,
        per_forward_pass).

(** [main], lines 296-346, as far as the schedule is concerned:
    [choose_auto_devices] is the device count the accelerator reports.
    (The check of [cuda_device_ids] against the hardware and the logging
    in between read the arguments without changing them.) *)
Definition main (choose_auto_devices : Z) (args : TrainingArgs)
  : result (TrainingArgs * Z) :=
  let args :=
    if num_devices args =? -1 then set_num_devices choose_auto_devices args
    else args in
  resolved ← handle_batch_size_logic_ args;
  calculate_training_constants (fst resolved) (snd resolved).

(** ** src/compute_mfu.py *)

Module ComputeMfu.

(** What a run's [config] and [summary] hold: numbers, and dictionaries
    of numbers ([summary["TokensPerSecond"]] is [{"mean": ...}]). *)
Inductive value : Type :=
  | VNum (q : Q)
  | VDict (d : gmap string Q).

(** A run object as returned by [api.runs]: [summary] is the client-side
    copy that item assignment mutates. *)
Record Run : Type := {
  id : string;
  name : string;
  tags : list string;
  config : gmap string value;
  summary : gmap string value
}.

Definition set_summary (s : gmap string value) (r : Run) : Run :=
  {| id := id r; name := name r; tags := tags r; config := config r;
     summary := s |}.

(** Calls made on a run's summary, in program order. *)
Inductive call : Type :=
  | SetItem (run key : string) (v : Q)
  | Update (run : string).

(** The experiment-tracking store (the committed summary of every run
    it knows), the lines printed, and the summary calls made so far. *)
Record World : Type := {
  store : gmap string (gmap string value);
  stdout : list (string * Q);
  calls : list call
}.

(** Stateful computations that may raise; the world survives the
    exception. *)
Definition M (A : Type) : Type := World -> World * result A.

#[global] Instance M_ret : MRet M := fun A a w => (w, Ok a).
#[global] Instance M_bind : MBind M := fun A B k m w =>
  match m w with
  | (w', Ok a) => k a w'
  | (w', Raise e) => (w', Raise e)
  end.

Definition lift {A} (r : result A) : M A := fun w => (w, r).

(** [d[key]] *)
Definition getitem {A} (d : gmap string A) (key : string) : result A :=
  match d !! key with
  | Some v => Ok v
  | None => Raise (KeyError key)
  end.

Definition as_num (v : value) : result Q :=
  match v with VNum q => Ok q | VDict _ => Raise TypeError end.

Definition as_dict (v : value) : result (gmap string Q) :=
  match v with VDict d => Ok d | VNum _ => Raise TypeError end.

(** [print(f"{run.name} has MFU {mfu:.2f}")] *)
Definition print (run_name : string) (mfu : Q) : M unit := fun w =>
  ({| store := store w; stdout := stdout w ++ [(run_name, mfu)];
      calls := calls w |}, Ok tt).

(** [run.summary[key] = v] *)
Definition summary_setitem (run : Run) (key : string) (v : Q) : M Run := fun w =>
  ({| store := store w; stdout := stdout w;
      calls := calls w ++ [SetItem (id run) key v] |},
   Ok (set_summary (<[key := VNum v]> (summary run)) run)).

(** [run.summary.update()]: sends the client-side summary to the store,
    which refuses a run it does not know. *)
Definition summary_update (run : Run) : M unit := fun w =>
  let w := {| store := store w; stdout := stdout w;
              calls := calls w ++ [Update (id run)] |} in
  match store w !! id run with
  | None => (w, Raise CommError)
  | Some _ =>
      ({| store := <[id run := summary run]> (store w); stdout := stdout w;
          calls := calls w |}, Ok tt)
  end.

(** The module-level constants. *)
Record Globals : Type := {
  gpu_constant : Q;
  parameters : Q;
  layers : Q;
  heads : Q;
  head_dimension : Q
}.

Definition globals : Globals :=
  {| gpu_constant := 154.85;
     parameters := 125000000 / 1000000000;
     layers := 12;
     heads := 12;
     head_dimension := 64 / 1000000 |}.

(** The body of [for run in runs]. *)
Definition loop_body (g : Globals) (run : Run) : M unit :=
  msl ← lift (getitem (config run) "max_sequence_length" ≫= as_num);
  let sequence_length := (msl / 1000)%Q in
  R ← lift (Py.truediv (gpu_constant g)
              (Some (6 * parameters g
                     + 12 * layers g * heads g * head_dimension g * sequence_length)%Q));
  mean ← lift (tps ← getitem (summary run) "TokensPerSecond" ≫= as_dict;
               getitem tps "mean");
  let mean_tokens := (mean / 1000)%Q in
  mfu ← lift (Py.truediv mean_tokens (Some R));
  _ ← print (name run) mfu;
  run ← summary_setitem run "mean_mfu" mfu;
  run ← summary_setitem run "max_tokens_theoretical" (R * 1000)%Q;
  summary_update run.

Fixpoint for_each (body : Run -> M unit) (runs : list Run) : M unit :=
  match runs with
  | [] => mret tt
  | run :: rest => _ ← body run; for_each body rest
  end.

(** [api.runs(path=..., filters={"tags": {"$in": ["report"]}})] *)
Definition api_runs (project : list Run) (wanted : list string) : list Run :=
  filter (fun r => existsb (fun t => existsb (String.eqb t) wanted) (tags r))
         project.

Definition compute_mfu (project : list Run) : M unit :=
  for_each (loop_body globals) (api_runs project ["report"]).

End ComputeMfu.

(** ** Binary64 evaluation *)

(** Python's own arithmetic, for checking the rational model at the
    inputs the examples below name: [float(z)] for a machine-sized
    non-negative [int], and [int(f)], which is undefined on infinities
    and NaN. *)
Module Binary64.
Import PrimFloat.
#[local] Set Warnings "-inexact-float".
#[local] Open Scope float_scope.

Definition of_int (z : Z) : PrimFloat.float :=
  PrimFloat.of_uint63 (Uint63.of_Z z).

Definition int (f : PrimFloat.float) : option Z :=
  match FloatOps.Prim2SF f with
  | SpecFloat.S754_zero _ => Some 0%Z
  | SpecFloat.S754_finite negative m e =>
      let magnitude :=
        match e with
        | Z0 => Z.pos m
        | Zpos p => (Z.pos m * 2 ^ Z.pos p)%Z
        | Zneg p => (Z.pos m `div` 2 ^ Z.pos p)%Z
        end in
      Some (if negative then (- magnitude)%Z else magnitude)
  | _ => None
  end.

(** [R] and [mfu] of compute_mfu.py for a run with sequence length 512
    and 50,000 tokens per second. *)
Definition R_512 : float :=
  154.85
  / (6 * (of_int 125000000 / of_int 1000000000)
     + of_int (12 * 12 * 12) * (of_int 64 / of_int 1000000)
       * (of_int 512 / of_int 1000)).

Definition mfu_512 : float := of_int 50000 / of_int 1000 / R_512.

End Binary64.

(** * Terms of the statements *)

(** ** The schedule derivation *)





(** The forward-pass divisor of lines 329, 332 and 335. *)
Definition per_forward_pass (args : TrainingArgs) (per_step : Z) : Q :=
  if String.eqb (training_goal_unit args) "optimizer-steps"
  then (1 / inject_Z (gradient_accumulation_steps args))%Q
  else if String.eqb (training_goal_unit args) "tokens"
  then inject_Z (per_step * max_sequence_length args)
  else inject_Z per_step.

(** The rule [__post_init__] applies to each schedule value. *)
Definition resolve_fraction (goal : Z) (v : Q) : Q :=
  if Py.lt v 1 then inject_Z (Py.int (inject_Z goal * v)) else v.

(** ** The MFU estimate *)

(** Section 4.3 of the specification, in its own words. *)
Module MFUEstimator.

Definition theoretical_peak_tokens_per_second (C P L H d S : Q) : Q :=
  (C / (6 * P + 12 * L * H * d * S))%Q.

Definition mfu (observed_tokens_per_second theoretical_peak : Q) : Q :=
  (observed_tokens_per_second / theoretical_peak)%Q.

End MFUEstimator.

Module BackfillTerms.
Import ComputeMfu.

(** The expressions the loop body binds to [R] and [mfu], as functions
    of the run's [max_sequence_length] and [TokensPerSecond.mean]. *)

Definition flops_per_token (g : Globals) (sequence_length : Q) : Q :=
  (6 * parameters g
   + 12 * layers g * heads g * head_dimension g * sequence_length)%Q.

Definition R (g : Globals) (max_sequence_length : Q) : Q :=
  (gpu_constant g / flops_per_token g (max_sequence_length / 1000))%Q.

Definition mfu (g : Globals) (max_sequence_length mean : Q) : Q :=
  (mean / 1000 / R g max_sequence_length)%Q.

(** The world after one successful iteration. *)
Definition processed (g : Globals) (run : Run) (msl mean : Q) (w : World) : World :=
  {| store :=
       <[id run :=
           <["max_tokens_theoretical" := VNum (R g msl * 1000)%Q]>
             (<["mean_mfu" := VNum (mfu g msl mean)]> (summary run))]> (store w);
     stdout := stdout w ++ [(name run, mfu g msl mean)];
     calls := calls w ++ [SetItem (id run) "mean_mfu" (mfu g msl mean);
                          SetItem (id run) "max_tokens_theoretical"
                            (R g msl * 1000)%Q;
                          Update (id run)] |}.

(** A call without its value. *)
Inductive call_kind : Type :=
  | KSetItem (run key : string)
  | KUpdate (run : string).

Definition kind (c : call) : call_kind :=
  match c with
  | SetItem run key _ => KSetItem run key
  | Update run => KUpdate run
  end.

Definition iteration_kinds (run : Run) : list call_kind :=
  [KSetItem (id run) "mean_mfu";
   KSetItem (id run) "max_tokens_theoretical";
   KUpdate (id run)].

End BackfillTerms.

(** * Example inputs *)

(** The defaults of the command line: 10M samples, validation every 5%,
    a checkpoint every 10%, warmup over 10%. *)
Definition default_args : TrainingArgs :=
  {| max_sequence_length := 512;
     num_devices := -1;
     training_goal := 10000000;
     training_goal_unit := "samples";
     val_frequency := 0.05;
     model_log_frequency := 0.1;
     batch_size_per_device := 42;
     effective_batch_size := None;
     lr_warmup := 0.1;
     gradient_accumulation_steps := 1 |}.



Definition invalid_unit_args : TrainingArgs :=
  {| max_sequence_length := 512;
     num_devices := 1;
     training_goal := 10000000;
     training_goal_unit := "invalid";
     val_frequency := 500000;
     model_log_frequency := 1000000;
     batch_size_per_device := 256;
     effective_batch_size := Some 256;
     lr_warmup := 1000000;
     gradient_accumulation_steps := 1 |}.

(** 100 samples per step are requested on one device holding 42: three
    accumulation steps, 126 samples per optimizer step. *)
Definition rounded_up_args : TrainingArgs :=
  {| max_sequence_length := 512;
     num_devices := 1;
     training_goal := 10000000;
     training_goal_unit := "samples";
     val_frequency := 500000;
     model_log_frequency := 1000000;
     batch_size_per_device := 42;
     effective_batch_size := Some 100;
     lr_warmup := 1000000;
     gradient_accumulation_steps := 1 |}.

Module BackfillExamples.
Import ComputeMfu BackfillTerms.

(** A run tagged for the report: sequence length 512, 50,000 tokens per
    second on average. *)
Definition report_run : Run :=
  {| id := "a1b2c3"; name := "gpt2-seq512"; tags := ["report"];
     config := {[ "max_sequence_length" := VNum 512 ]};
     summary := {[ "TokensPerSecond" := VDict {[ "mean" := 50000%Q ]} ]} |}.

Definition world0 : World :=
  {| store := {[ "a1b2c3" := summary report_run ]}; stdout := []; calls := [] |}.

(** A run reported at one and a half times the theoretical peak. *)
Definition overdriven_run : Run :=
  {| id := "a1b2c3"; name := "gpt2-seq512"; tags := ["report"];
     config := {[ "max_sequence_length" := VNum 512 ]};
     summary :=
       {[ "TokensPerSecond" := VDict {[ "mean" := (R globals 512 * 1000 * 1.5)%Q ]} ]} |}.

(** A tagged run that never logged its throughput, listed before
    [report_run]. *)
Definition crashed_run : Run :=
  {| id := "d4e5f6"; name := "gpt2-seq1024"; tags := ["report"];
     config := {[ "max_sequence_length" := VNum 1024 ]};
     summary := ∅ |}.

Definition world2 : World :=
  {| store := {[ "d4e5f6" := summary crashed_run; "a1b2c3" := summary report_run ]};
     stdout := []; calls := [] |}.

(** A run the store no longer knows: [update()] is refused. *)
Definition deleted_run : Run :=
  {| id := "0a0b0c"; name := "gpt2-seq256"; tags := ["report"];
     config := {[ "max_sequence_length" := VNum 256 ]};
     summary := {[ "TokensPerSecond" := VDict {[ "mean" := 60000%Q ]} ]} |}.

End BackfillExamples.

(** ** The same goal in another unit *)










(** ** More terms for the backfill *)

Module BackfillMore.
Import ComputeMfu BackfillTerms.

(** The run a summary call is made on. *)
Definition call_run (c : call) : string :=
  match c with
  | SetItem run _ _ => run
  | Update run => run
  end.


(** The number the store holds under [key] in the summary of [run]. *)
Definition committed (w : World) (run key : string) : option Q :=
  match store w !! run with
  | Some s => match s !! key with Some (VNum q) => Some q | _ => None end
  | None => None
  end.

(** The world after an iteration whose [update()] is refused: the line
    is printed and the three calls are made, the store is as before. *)
Definition refused (g : Globals) (run : Run) (msl mean : Q) (w : World) : World :=
  {| store := store w;
     stdout := stdout w ++ [(name run, mfu g msl mean)];
     calls := calls w ++ [SetItem (id run) "mean_mfu" (mfu g msl mean);
                          SetItem (id run) "max_tokens_theoretical"
                            (R g msl * 1000)%Q;
                          Update (id run)] |}.

(** What an iteration needs to go through: the two numbers, non-zero
    divisors, and a store that knows the run. *)
Definition ready (g : Globals) (w : World) (run : Run) : Prop :=
  exists (msl mean : Q) (tps : gmap string Q),
    config run !! "max_sequence_length" = Some (VNum msl) /\
    summary run !! "TokensPerSecond" = Some (VDict tps) /\
    tps !! "mean" = Some mean /\
    ~ (flops_per_token g (msl / 1000) == 0)%Q /\
    ~ (R g msl == 0)%Q /\
    is_Some (store w !! id run).

(** The module constants with another hardware constant. *)
Definition with_gpu_constant (c : Q) (g : Globals) : Globals :=
  {| gpu_constant := c;
     parameters := parameters g;
     layers := layers g;
     heads := heads g;
     head_dimension := head_dimension g |}.

(** A run of the same project that is not tagged for the report. *)
Definition draft_run : Run :=
  {| id := "0d0e0f"; name := "gpt2-draft"; tags := ["debug"];
     config := {[ "max_sequence_length" := VNum 512 ]};
     summary := {[ "TokensPerSecond" := VDict {[ "mean" := 40000%Q ]} ]} |}.

Definition world3 : World :=
  {| store := {[ "0d0e0f" := summary draft_run;
                 "a1b2c3" := summary BackfillExamples.report_run ]};
     stdout := []; calls := [] |}.

(** A run that recorded a sequence length of 0 and no throughput at
    all, under the identifier of [report_run]. *)
Definition idle_run : Run :=
  {| id := "a1b2c3"; name := "gpt2-idle"; tags := ["report"];
     config := {[ "max_sequence_length" := VNum 0 ]};
     summary := {[ "TokensPerSecond" := VDict {[ "mean" := 0%Q ]} ]} |}.

(** [report_run] at twice the sequence length. *)
Definition long_run : Run :=
  {| id := "a1b2c3"; name := "gpt2-seq1024"; tags := ["report"];
     config := {[ "max_sequence_length" := VNum 1024 ]};
     summary := {[ "TokensPerSecond" := VDict {[ "mean" := 50000%Q ]} ]} |}.

End BackfillMore.

(** * More of train.py *)

(** ** Devices: [__post_init__] lines 202-207, [main] lines 294-303
    and the [devices] argument of the trainer *)

Module Devices.

Record HardwareArgs : Type := {
  accelerator : string;
  num_devices : Z;
  cuda_device_ids : list Z
}.

(** [len(self.cuda_device_ids)] *)
Definition len (ids : list Z) : Z := Z.of_nat (length ids).

(** Lines 202-207: explicit device ids overwrite [num_devices]; the
    flag tells whether the overwrite was logged as a warning. *)
Definition __post_init__ (self : HardwareArgs) : HardwareArgs * bool :=
  match cuda_device_ids self with
  | [] => (self, false)
  | _ :: _ =>
      ({| accelerator := accelerator self;
          num_devices := len (cuda_device_ids self);
          cuda_device_ids := cuda_device_ids self |},
       negb (num_devices self =? -1))
  end.

(** What the host reports: the accelerator and the device count that
    [choose_auto_accelerator] and [choose_auto_devices] pick, and
    [torch.cuda.device_count()]. *)
Record Host : Type := {
  choose_auto_accelerator : string;
  choose_auto_devices : string -> Z;
  cuda_device_count : Z
}.

(** Lines 294-303. *)
Definition specify_auto_arguments (host : Host) (args : HardwareArgs)
  : result HardwareArgs :=
  let args :=
    if String.eqb (accelerator args) "auto"
    then {| accelerator := choose_auto_accelerator host;
            num_devices := num_devices args;
            cuda_device_ids := cuda_device_ids args |}
    else args in
  let args :=
    if num_devices args =? -1
    then {| accelerator := accelerator args;
            num_devices := choose_auto_devices host (accelerator args);
            cuda_device_ids := cuda_device_ids args |}
    else args in
  match cuda_device_ids args with
  | [] => Ok args
  | _ :: _ =>
      if cuda_device_count host <? len (cuda_device_ids args)
      then Raise (ValueError ("Requested " +:+ pretty (len (cuda_device_ids args))
                              +:+ " CUDA GPUs but only "
                              +:+ pretty (cuda_device_count host)
                              +:+ " are available."))
      else Ok args
  end.

(** Line 458: [devices=args.cuda_device_ids or args.num_devices]. *)
Definition trainer_devices (args : HardwareArgs) : list Z + Z :=
  match cuda_device_ids args with
  | [] => inr (num_devices args)
  | _ :: _ => inl (cuda_device_ids args)
  end.

(** How many devices a [devices] argument asks for. *)
Definition requested (devices : list Z + Z) : Z :=
  match devices with
  | inl ids => len ids
  | inr n => n
  end.

(** Devices 0 and 2 of a host with four GPUs, with [--num_devices 8]
    given as well. *)
Definition two_of_four : HardwareArgs :=
  {| accelerator := "auto"; num_devices := 8; cuda_device_ids := [0; 2] |}.

Definition four_gpu_host : Host :=
  {| choose_auto_accelerator := "cuda";
     choose_auto_devices := fun _ => 4;
     cuda_device_count := 4 |}.

Definition one_gpu_host : Host :=
  {| choose_auto_accelerator := "cuda";
     choose_auto_devices := fun _ => 1;
     cuda_device_count := 1 |}.

End Devices.

(** ** Resuming and validating: [main] lines 266-279, 373-391 and
    474-483 *)

Module Resume.

Record ResumeArgs : Type := {
  checkpoint_path : option string;
  resume_training : bool;
  val_before_training : bool;
  val_only : bool
}.

(** Truth value of an optional string: [None] and [""] are false. *)
Definition truthy (s : option string) : bool :=
  match s with
  | Some s => negb (String.eqb s "")
  | None => false
  end.

(** The keyword arguments added to [WandbLogger]. *)
Inductive wandb_extra_args : Type :=
  | ByName (name : option string)
  | MustResume (id : option string).

(** Lines 266-279; [check] is [check_checkpoint_path_for_wandb]. *)
Definition wandb_logger_args
    (check : string -> option string) (wandb_run_name : option string)
    (args : ResumeArgs) : wandb_extra_args * ResumeArgs :=
  let resume :=
    match checkpoint_path args with
    | Some path =>
        truthy (Some path) && resume_training args && truthy (check path)
    | None => false
    end in
  if resume then
    (MustResume (match checkpoint_path args with
                 | Some path => check path
                 | None => None
                 end), args)
  else
    (ByName wandb_run_name,
     {| checkpoint_path := checkpoint_path args;
        resume_training := false;
        val_before_training := val_before_training args;
        val_only := val_only args |}).

(** Where the model comes from. *)
Inductive model_source : Type :=
  | FromScratch
  | WeightsOnly (path : string)
  | FullCheckpoint (path : string).

(** Lines 373-391; [download] is
    [check_for_wandb_checkpoint_and_download_if_necessary]. *)
Definition construct_model (download : string -> string) (args : ResumeArgs)
  : model_source * ResumeArgs :=
  match checkpoint_path args with
  | Some path =>
      if truthy (Some path) then
        let args := {| checkpoint_path := Some (download path);
                       resume_training := resume_training args;
                       val_before_training := val_before_training args;
                       val_only := val_only args |} in
        (if resume_training args then FullCheckpoint (download path)
         else WeightsOnly (download path), args)
      else (FromScratch, args)
  | None => (FromScratch, args)
  end.

(** What the trainer is asked to do. *)
Inductive step : Type :=
  | Validate
  | Exit (code : Z)
  | Fit (ckpt_path : option string).

(** Lines 474-483. *)
Definition run_trainer (args : ResumeArgs) : list step :=
  let fit := Fit (if resume_training args then checkpoint_path args else None) in
  if val_before_training args && negb (resume_training args) then
    if val_only args then [Validate; Exit 0] else [Validate; fit]
  else [fit].

Record Plan : Type := {
  logger_args : wandb_extra_args;
  model : model_source;
  steps : list step
}.

(** The three places in program order. *)
Definition plan (check : string -> option string) (download : string -> string)
    (wandb_run_name : option string) (args : ResumeArgs) : Plan :=
  let '(extra, args) := wandb_logger_args check wandb_run_name args in
  let '(source, args) := construct_model download args in
  {| logger_args := extra; model := source; steps := run_trainer args |}.

(** [--resume --checkpoint ./last.ckpt]: a local file. *)
Definition local_resume : ResumeArgs :=
  {| checkpoint_path := Some "./last.ckpt";
     resume_training := true;
     val_before_training := true;
     val_only := false |}.

(** Recognizes [wandb:] references only. *)
Definition wandb_only (path : string) : option string :=
  if String.prefix "wandb:" path then Some (String.substring 6 (String.length path - 6) path)
  else None.

(** A checkpoint path is given, resuming is asked for, and the path is
    a W&B reference. *)
Definition resumes (check : string -> option string) (args : ResumeArgs) : Prop :=
  exists path : string,
    checkpoint_path args = Some path /\ path <> "" /\
    resume_training args = true /\ truthy (check path) = true.

End Resume.

(** * Properties *)

(** ** Arithmetic of [int] and [/] *)

Lemma int_floor (x : Q) : (0 <= x)%Q -> Py.int x = Qfloor x.
Proof.
  destruct x as [n d]. unfold Qle, Py.int, Qfloor. simpl. intros Hn.
  apply Z.quot_div_nonneg; lia.
Qed.

Lemma int_opp (x : Q) : Py.int (- x) = - Py.int x.
Proof.
  destruct x as [n d]. unfold Py.int. simpl. apply Z.quot_opp_l. lia.
Qed.

Lemma int_comp (x y : Q) : (x == y)%Q -> Py.int x = Py.int y.
Proof.
  intros Hxy. destruct (Qlt_le_dec x 0) as [Hneg | Hpos].
  - assert (Hx : (0 <= - x)%Q) by lra.
    assert (Hy : (0 <= - y)%Q) by lra.
    assert (E : Py.int (- x) = Py.int (- y)).
    { rewrite (int_floor _ Hx), (int_floor _ Hy). apply Qfloor_comp. lra. }
    rewrite !int_opp in E. lia.
  - assert (Hy : (0 <= y)%Q) by lra.
    rewrite (int_floor _ Hpos), (int_floor _ Hy). now apply Qfloor_comp.
Qed.

#[global] Instance int_proper : Proper (Qeq ==> eq) Py.int.
Proof. intros x y. apply int_comp. Qed.




Lemma truediv_ok (a b : Q) : ~ (b == 0)%Q -> Py.truediv a (Some b) = Ok (a / b)%Q.
Proof.
  intros Hb. unfold Py.truediv. destruct (Qeq_bool b 0) eqn:E; [|reflexivity].
  apply Qeq_bool_iff in E. contradiction.
Qed.

Lemma truediv_inv (a b r : Q) :
  Py.truediv a (Some b) = Ok r -> ~ (b == 0)%Q /\ r = (a / b)%Q.
Proof.
  unfold Py.truediv. destruct (Qeq_bool b 0) eqn:E; [discriminate|].
  intros [= <-]. split; [|reflexivity].
  intros Hz. apply Qeq_bool_iff in Hz. congruence.
Qed.


(** ** The schedule derivation of [main] *)














Example unknown_unit_raises :
  calculate_training_constants invalid_unit_args 256
  = Raise (ValueError "Unknown training goal unit: invalid").
Proof. reflexivity. Qed.

(** ** The batch plan feeding the derivation *)






Example rounded_up_schedule :
  main 1 rounded_up_args
  = Ok ({| max_sequence_length := 512;
           num_devices := 1;
           training_goal := 79365;
           training_goal_unit := "samples";
           val_frequency := 11904;
           model_log_frequency := 7936;
           batch_size_per_device := 42;
           effective_batch_size := Some 126;
           lr_warmup := 7936;
           gradient_accumulation_steps := 3 |}, 3968).
Proof. vm_compute. reflexivity. Qed.

(** ** Fractions of the training goal *)

Lemma post_init_fields (args : TrainingArgs) :
  val_frequency (__post_init__ args)
  = resolve_fraction (training_goal args) (val_frequency args) /\
  model_log_frequency (__post_init__ args)
  = resolve_fraction (training_goal args) (model_log_frequency args) /\
  lr_warmup (__post_init__ args)
  = resolve_fraction (training_goal args) (lr_warmup args) /\
  training_goal (__post_init__ args) = training_goal args.
Proof.
  destruct args as [seq nd goal unit vf mlf bspd ebs warm gas].
  unfold __post_init__, resolve_fraction. cbn [val_frequency model_log_frequency
    lr_warmup training_goal].
  destruct (Py.lt vf 1); cbn -[Py.lt Py.int inject_Z Qmult];
    (destruct (Py.lt mlf 1); cbn -[Py.lt Py.int inject_Z Qmult];
     (destruct (Py.lt warm 1); cbn -[Py.lt Py.int inject_Z Qmult];
      repeat split; reflexivity)).
Qed.


Lemma lt_spec (x y : Q) : Py.lt x y = true <-> (x < y)%Q.
Proof.
  unfold Py.lt. rewrite Bool.negb_true_iff.
  destruct (Qle_bool y x) eqn:E.
  - apply Qle_bool_iff in E. split; [discriminate | lra].
  - split; [|reflexivity]. intros _. apply Qnot_le_lt. intros Hle.
    apply Qle_bool_iff in Hle. congruence.
Qed.






(** A value of exactly 1 stays the count 1 (1 sample, not the whole
    goal). *)
Example one_is_a_count :
  val_frequency (__post_init__ (set_val_frequency 1 default_args)) = 1%Q.
Proof. reflexivity. Qed.

(** ** The offline MFU backfill *)

Module MfuBackfill.
Import ComputeMfu BackfillTerms BackfillExamples.

Lemma bind_lift {A B : Type} (r : result A) (k : A -> M B) (w : World) :
  (lift r ≫= k) w
  = match r with Ok a => k a w | Raise e => (w, Raise e) end.
Proof. destruct r; reflexivity. Qed.

Lemma loop_body_ok (g : Globals) (run : Run) (w : World)
    (msl mean : Q) (tps : gmap string Q) :
  config run !! "max_sequence_length" = Some (VNum msl) ->
  summary run !! "TokensPerSecond" = Some (VDict tps) ->
  tps !! "mean" = Some mean ->
  ~ (flops_per_token g (msl / 1000) == 0)%Q ->
  ~ (R g msl == 0)%Q ->
  is_Some (store w !! id run) ->
  loop_body g run w = (processed g run msl mean w, Ok tt).
Proof.
  intros Hc Hs Hm Hf HR [prev Hst].
  unfold loop_body, getitem. rewrite Hc, Hs. cbn [mbind result_bind as_num as_dict].
  rewrite Hm. rewrite bind_lift, bind_lift, (truediv_ok _ _ Hf).
  rewrite bind_lift, bind_lift, (truediv_ok _ _ HR).
  unfold mbind, M_bind, summary_update. cbn -[Qdiv Qmult Qplus].
  rewrite Hst. unfold processed. rewrite <- !app_assoc. reflexivity.
Qed.

Lemma loop_body_inv (g : Globals) (run : Run) (w w' : World) :
  loop_body g run w = (w', Ok tt) ->
  exists (msl mean : Q) (tps : gmap string Q),
    config run !! "max_sequence_length" = Some (VNum msl) /\
    summary run !! "TokensPerSecond" = Some (VDict tps) /\
    tps !! "mean" = Some mean /\
    ~ (flops_per_token g (msl / 1000) == 0)%Q /\
    ~ (R g msl == 0)%Q /\
    is_Some (store w !! id run) /\
    w' = processed g run msl mean w.
Proof.
  unfold loop_body. rewrite bind_lift. unfold getitem at 1.
  destruct (config run !! "max_sequence_length") as [[msl | ?] | ] eqn:Hc;
    cbn [mbind result_bind as_num]; try discriminate.
  rewrite bind_lift.
  destruct (Py.truediv (gpu_constant g) _) as [r | ?] eqn:Hdiv; [|discriminate].
  apply truediv_inv in Hdiv as [Hf ->].
  rewrite bind_lift. unfold getitem.
  destruct (summary run !! "TokensPerSecond") as [[? | tps] | ] eqn:Hs;
    cbn [mbind result_bind as_dict]; try discriminate.
  destruct (tps !! "mean") as [mean | ] eqn:Hm; [|discriminate].
  rewrite bind_lift.
  destruct (Py.truediv (mean / 1000) _) as [m | ?] eqn:Hdiv; [|discriminate].
  apply truediv_inv in Hdiv as [HR ->].
  unfold mbind, M_bind, summary_update. cbn -[Qdiv Qmult Qplus].
  destruct (store w !! id run) as [prev | ] eqn:Hst; [|discriminate].
  intros [= <-]. exists msl, mean, tps.
  repeat split; try assumption; [eauto|].
  unfold processed. rewrite <- !app_assoc. reflexivity.
Qed.

Lemma flops_per_token_pos (g : Globals) (s : Q) :
  (0 < parameters g)%Q -> (0 < layers g)%Q -> (0 < heads g)%Q ->
  (0 < head_dimension g)%Q -> (0 < s)%Q ->
  (0 < flops_per_token g s)%Q.
Proof.
  intros Hp Hl Hh Hd Hs. unfold flops_per_token.
  assert (H1 : (0 < 12 * layers g)%Q) by lra.
  pose proof (Qmult_lt_0_compat _ _ H1 Hh) as H2.
  pose proof (Qmult_lt_0_compat _ _ H2 Hd) as H3.
  pose proof (Qmult_lt_0_compat _ _ H3 Hs) as H4.
  lra.
Qed.

Lemma Qdiv_pos (a b : Q) : (0 < a)%Q -> (0 < b)%Q -> (0 < a / b)%Q.
Proof.
  intros Ha Hb. unfold Qdiv. apply Qmult_lt_0_compat; [exact Ha|].
  now apply Qinv_lt_0_compat.
Qed.

Lemma R_pos_flops_nonzero (g : Globals) (msl : Q) :
  (0 < R g msl)%Q -> ~ (flops_per_token g (msl / 1000) == 0)%Q.
Proof.
  intros HR Hz. unfold R in HR. rewrite Hz in HR. unfold Qdiv in HR.
  assert (E : (gpu_constant g * / 0 == 0)%Q) by (unfold Qinv; simpl; ring).
  rewrite E in HR. lra.
Qed.

Lemma processed_store (g : Globals) (run : Run) (msl mean : Q) (w : World) :
  store (processed g run msl mean w) !! id run
  = Some (<["max_tokens_theoretical" := VNum (R g msl * 1000)%Q]>
            (<["mean_mfu" := VNum (mfu g msl mean)]> (summary run))).
Proof. unfold processed. cbn [store]. apply lookup_insert_eq. Qed.

Lemma processed_fields (g : Globals) (run : Run) (msl mean : Q) (w : World) :
  exists s : gmap string value,
    store (processed g run msl mean w) !! id run = Some s /\
    s !! "max_tokens_theoretical" = Some (VNum (R g msl * 1000)%Q) /\
    s !! "mean_mfu" = Some (VNum (mfu g msl mean)).
Proof.
  eexists. split; [apply processed_store|]. split.
  - apply lookup_insert_eq.
  - rewrite lookup_insert_ne by discriminate. apply lookup_insert_eq.
Qed.

(** C6.  Let the module constants follow the script's unit convention
    for positive raw constants [C] (FLOP/s), [P], [L], [H], [d]:
    [gpu_constant = C / 10^12], [parameters = P / 10^9],
    [head_dimension = d / 10^6].  For a run with a positive
    [max_sequence_length] [S] the iteration succeeds, the committed
    [max_tokens_theoretical] is [C / (6*P + 12*L*H*d*S)], and the
    committed [mean_mfu] is the observed [TokensPerSecond.mean] divided
    by that peak. *)
Theorem C6_theoretical_peak_and_mfu
    (g : Globals) (C P L H d S : Q)
    (run : Run) (w : World) (mean : Q) (tps : gmap string Q)
    (prev : gmap string value) :
  (0 < C)%Q -> (0 < P)%Q -> (0 < L)%Q -> (0 < H)%Q -> (0 < d)%Q -> (0 < S)%Q ->
  (gpu_constant g == C / 1000000000000)%Q ->
  (parameters g == P / 1000000000)%Q ->
  (layers g == L)%Q -> (heads g == H)%Q ->
  (head_dimension g == d / 1000000)%Q ->
  config run !! "max_sequence_length" = Some (VNum S) ->
  summary run !! "TokensPerSecond" = Some (VDict tps) ->
  tps !! "mean" = Some mean ->
  store w !! id run = Some prev ->
  exists (w' : World) (s : gmap string value) (peak m : Q),
    loop_body g run w = (w', Ok tt) /\
    store w' !! id run = Some s /\
    s !! "max_tokens_theoretical" = Some (VNum peak) /\
    s !! "mean_mfu" = Some (VNum m) /\
    (peak == MFUEstimator.theoretical_peak_tokens_per_second C P L H d S)%Q /\
    (m == MFUEstimator.mfu mean peak)%Q.
Proof.
  intros HC HP HL HH Hd HS EC EP EL EH Ed Hcfg Hsum Hmean Hst.
  assert (Hgp : (0 < parameters g)%Q) by (rewrite EP; apply Qdiv_pos; lra).
  assert (Hgl : (0 < layers g)%Q) by (rewrite EL; exact HL).
  assert (Hgh : (0 < heads g)%Q) by (rewrite EH; exact HH).
  assert (Hgd : (0 < head_dimension g)%Q) by (rewrite Ed; apply Qdiv_pos; lra).
  assert (Hgc : (0 < gpu_constant g)%Q) by (rewrite EC; apply Qdiv_pos; lra).
  assert (Hs : (0 < S / 1000)%Q) by (apply Qdiv_pos; lra).
  pose proof (flops_per_token_pos g (S / 1000) Hgp Hgl Hgh Hgd Hs) as Hflops.
  assert (HR : (0 < R g S)%Q) by (unfold R; now apply Qdiv_pos).
  assert (Hraw : (0 < 6 * P + 12 * L * H * d * S)%Q).
  { assert (H1 : (0 < 12 * L)%Q) by lra.
    pose proof (Qmult_lt_0_compat _ _ H1 HH) as H2.
    pose proof (Qmult_lt_0_compat _ _ H2 Hd) as H3.
    pose proof (Qmult_lt_0_compat _ _ H3 HS) as H4. lra. }
  assert (Escale : (flops_per_token g (S / 1000)
                    == (6 * P + 12 * L * H * d * S) / 1000000000)%Q).
  { unfold flops_per_token. rewrite EP, EL, EH, Ed. field. }
  assert (Epeak : (R g S * 1000
                   == MFUEstimator.theoretical_peak_tokens_per_second C P L H d S)%Q).
  { unfold R, MFUEstimator.theoretical_peak_tokens_per_second.
    rewrite Escale, EC. field. lra. }
  destruct (processed_fields g run S mean w) as (s & Hs1 & Hs2 & Hs3).
  exists (processed g run S mean w), s, (R g S * 1000)%Q, (mfu g S mean).
  split; [|repeat split; try assumption].
  - apply (loop_body_ok g run w S mean tps); eauto; lra.
  - unfold mfu, MFUEstimator.mfu. field. lra.
Qed.

Lemma C6_theoretical_peak_and_mfu_witness :
  exists (w' : World) (s : gmap string value) (peak m : Q),
    loop_body globals report_run world0 = (w', Ok tt) /\
    store w' !! "a1b2c3" = Some s /\
    s !! "max_tokens_theoretical" = Some (VNum peak) /\
    s !! "mean_mfu" = Some (VNum m) /\
    (peak == MFUEstimator.theoretical_peak_tokens_per_second
               154850000000000 125000000 12 12 64 512)%Q /\
    (m == MFUEstimator.mfu 50000 peak)%Q.
Proof.
  apply (C6_theoretical_peak_and_mfu globals 154850000000000 125000000 12 12 64 512
           report_run world0 50000 {[ "mean" := 50000%Q ]} (summary report_run)).
  - reflexivity.
  - reflexivity.
  - reflexivity.
  - reflexivity.
  - reflexivity.
  - reflexivity.
  - vm_compute; reflexivity.
  - vm_compute; reflexivity.
  - vm_compute; reflexivity.
  - vm_compute; reflexivity.
  - vm_compute; reflexivity.
  - reflexivity.
  - reflexivity.
  - reflexivity.
  - reflexivity.
Defined.

(** The script's constants are a consistent unit convention: 154.85
    TFLOP/s, 125M parameters, 12 layers of 12 heads of dimension 64. *)
Lemma globals_convention :
  (gpu_constant globals == 154850000000000 / 1000000000000)%Q /\
  (parameters globals == 125000000 / 1000000000)%Q /\
  (layers globals == 12)%Q /\ (heads globals == 12)%Q /\
  (head_dimension globals == 64 / 1000000)%Q.
Proof. repeat split; vm_compute; reflexivity. Qed.

(** C7.  Whenever the theoretical peak [R * 1000] of a run is positive
    and its observed throughput is [k] times that peak, with
    [0 < k <= 2], the committed [mean_mfu] is [k]; for [k > 1] it is
    above 1, nothing clamps it. *)
Theorem C7_mfu_round_trip
    (g : Globals) (run : Run) (w : World) (S observed k : Q)
    (tps : gmap string Q) (prev : gmap string value) :
  (0 < R g S * 1000)%Q -> (0 < k)%Q -> (k <= 2)%Q ->
  config run !! "max_sequence_length" = Some (VNum S) ->
  summary run !! "TokensPerSecond" = Some (VDict tps) ->
  tps !! "mean" = Some observed ->
  (observed == R g S * 1000 * k)%Q ->
  store w !! id run = Some prev ->
  exists (w' : World) (s : gmap string value) (m : Q),
    loop_body g run w = (w', Ok tt) /\
    store w' !! id run = Some s /\
    s !! "max_tokens_theoretical" = Some (VNum (R g S * 1000)%Q) /\
    s !! "mean_mfu" = Some (VNum m) /\
    (m == k)%Q /\
    ((1 < k)%Q -> (1 < m)%Q).
Proof.
  intros Hpeak Hk0 Hk2 Hcfg Hsum Hmean Hobs Hst.
  assert (HR : (0 < R g S)%Q) by lra.
  assert (Em : (mfu g S observed == k)%Q).
  { unfold mfu. rewrite Hobs. field. lra. }
  destruct (processed_fields g run S observed w) as (s & Hs1 & Hs2 & Hs3).
  exists (processed g run S observed w), s, (mfu g S observed).
  repeat split; try assumption.
  - apply (loop_body_ok g run w S observed tps); eauto.
    + now apply R_pos_flops_nonzero.
    + lra.
  - intros Hk1. rewrite Em. exact Hk1.
Qed.

Lemma C7_mfu_round_trip_witness :
  exists (w' : World) (s : gmap string value) (m : Q),
    loop_body globals overdriven_run world0 = (w', Ok tt) /\
    store w' !! "a1b2c3" = Some s /\
    s !! "max_tokens_theoretical" = Some (VNum (R globals 512 * 1000)%Q) /\
    s !! "mean_mfu" = Some (VNum m) /\
    (m == 1.5)%Q /\
    ((1 < 1.5)%Q -> (1 < m)%Q).
Proof.
  apply (C7_mfu_round_trip globals overdriven_run world0 512
           (R globals 512 * 1000 * 1.5)%Q 1.5
           {[ "mean" := (R globals 512 * 1000 * 1.5)%Q ]} (summary report_run)).
  - vm_compute; reflexivity.
  - reflexivity.
  - vm_compute; discriminate.
  - reflexivity.
  - reflexivity.
  - reflexivity.
  - reflexivity.
  - reflexivity.
Defined.

(** *** The whole batch *)

Lemma for_each_app (body : Run -> M unit) (pre post : list Run) (w : World) :
  for_each body (pre ++ post) w
  = match for_each body pre w with
    | (w1, Ok _) => for_each body post w1
    | (w1, Raise e) => (w1, Raise e)
    end.
Proof.
  revert w. induction pre as [| run pre IH]; intros w; [reflexivity|].
  cbn [app for_each]. unfold mbind, M_bind.
  destruct (body run w) as [w1 [u | e]]; [apply IH | reflexivity].
Qed.

Lemma for_each_cons_ok (body : Run -> M unit) (run : Run) (rest : list Run)
    (w w' : World) :
  for_each body (run :: rest) w = (w', Ok tt) ->
  exists w1, body run w = (w1, Ok tt) /\ for_each body rest w1 = (w', Ok tt).
Proof.
  cbn [for_each]. unfold mbind, M_bind.
  destruct (body run w) as [w1 [[] | e]]; [|discriminate].
  intros H. exists w1. split; [reflexivity | exact H].
Qed.

Lemma for_each_calls (g : Globals) (runs : list Run) (w w' : World) :
  for_each (loop_body g) runs w = (w', Ok tt) ->
  map kind (calls w') = map kind (calls w) ++ flat_map iteration_kinds runs.
Proof.
  revert w. induction runs as [| run rest IH]; intros w Hrun.
  - cbn in Hrun. injection Hrun as <-. cbn. now rewrite app_nil_r.
  - apply for_each_cons_ok in Hrun as (w1 & Hbody & Hrest).
    apply loop_body_inv in Hbody as (msl & mean & tps & _ & _ & _ & _ & _ & _ & ->).
    rewrite (IH _ Hrest). unfold processed. cbn [calls flat_map].
    rewrite map_app, <- app_assoc. reflexivity.
Qed.

(** C8.  When the backfill completes, the summary calls it made are,
    for every run in turn, the assignment of [mean_mfu], the assignment
    of [max_tokens_theoretical], and then [update()]; and each iteration
    commits the run's summary with exactly these two fields set. *)
Theorem C8_two_fields_then_update
    (g : Globals) (runs : list Run) (w w' : World) :
  for_each (loop_body g) runs w = (w', Ok tt) ->
  map kind (calls w') = map kind (calls w) ++ flat_map iteration_kinds runs /\
  forall (pre post : list Run) (run : Run),
    runs = pre ++ run :: post ->
    exists (w1 w2 : World) (m peak : Q),
      for_each (loop_body g) pre w = (w1, Ok tt) /\
      loop_body g run w1 = (w2, Ok tt) /\
      calls w2 = calls w1 ++ [SetItem (id run) "mean_mfu" m;
                              SetItem (id run) "max_tokens_theoretical" peak;
                              Update (id run)] /\
      store w2 = <[id run := <["max_tokens_theoretical" := VNum peak]>
                               (<["mean_mfu" := VNum m]> (summary run))]> (store w1) /\
      for_each (loop_body g) post w2 = (w', Ok tt).
Proof.
  intros Hrun. split; [now apply (for_each_calls g)|].
  intros pre post run ->. rewrite for_each_app in Hrun.
  destruct (for_each (loop_body g) pre w) as [w1 [[] | e]]; [|discriminate].
  apply for_each_cons_ok in Hrun as (w2 & Hbody & Hrest).
  pose proof Hbody as Hinv.
  apply loop_body_inv in Hinv as (msl & mean & tps & _ & _ & _ & _ & _ & _ & ->).
  exists w1, (processed g run msl mean w1), (mfu g msl mean), (R g msl * 1000)%Q.
  repeat split; assumption || reflexivity.
Qed.

Lemma C8_two_fields_then_update_witness :
  map kind (calls (fst (compute_mfu [report_run] world0)))
  = [KSetItem "a1b2c3" "mean_mfu";
     KSetItem "a1b2c3" "max_tokens_theoretical";
     KUpdate "a1b2c3"].
Proof.
  destruct (C8_two_fields_then_update globals [report_run] world0
              (fst (compute_mfu [report_run] world0))) as [Hcalls _].
  - vm_compute; reflexivity.
  - exact Hcalls.
Defined.



(** *** Failures *)

(** C9, as stated, fails: [report_run] alone is processed, but listed
    after a run whose summary has no [TokensPerSecond] it is never
    reached: the [KeyError] ends the script, nothing is printed, no
    summary call is made and the store is left as it was. *)
Lemma C9_failure_stops_the_batch :
  snd (compute_mfu [report_run] world2) = Ok tt /\
  compute_mfu [crashed_run; report_run] world2
  = (world2, Raise (KeyError "TokensPerSecond")).
Proof. split; vm_compute; reflexivity. Qed.

Lemma loop_body_raise_store (g : Globals) (run : Run) (w w' : World) (e : PyError) :
  loop_body g run w = (w', Raise e) -> store w' = store w.
Proof.
  unfold loop_body. rewrite bind_lift.
  destruct (getitem _ _ ≫= as_num) as [msl | e1]; [|intros [= <- _]; reflexivity].
  rewrite bind_lift.
  destruct (Py.truediv _ _) as [r | e1]; [|intros [= <- _]; reflexivity].
  rewrite bind_lift.
  destruct (_ ≫= _) as [mean | e1]; [|intros [= <- _]; reflexivity].
  rewrite bind_lift.
  destruct (Py.truediv _ _) as [m | e1]; [|intros [= <- _]; reflexivity].
  unfold mbind, M_bind. cbn -[Qdiv Qmult Qplus].
  unfold summary_update. cbn -[Qdiv Qmult Qplus].
  destruct (store w !! id run); [discriminate|].
  intros [= <- _]. reflexivity.
Qed.

(** C9, amended.  If an iteration raises, for whatever reason, after
    the runs before it were processed, the whole loop ends with that
    exception in the world the failing iteration left: the runs after
    it are not visited, and the failing iteration has committed
    nothing. *)
Theorem C9_failure_ends_the_loop
    (g : Globals) (pre post : list Run) (run : Run) (w w1 w2 : World)
    (e : PyError) :
  for_each (loop_body g) pre w = (w1, Ok tt) ->
  loop_body g run w1 = (w2, Raise e) ->
  for_each (loop_body g) (pre ++ run :: post) w = (w2, Raise e) /\
  store w2 = store w1.
Proof.
  intros Hpre Hbody. split.
  - rewrite for_each_app, Hpre. cbn [for_each]. unfold mbind, M_bind.
    rewrite Hbody. reflexivity.
  - now apply loop_body_raise_store in Hbody.
Qed.

Lemma C9_failure_ends_the_loop_witness :
  snd (for_each (loop_body globals) ([report_run] ++ deleted_run :: [report_run]) world2)
  = Raise CommError /\
  store (fst (loop_body globals deleted_run
                (fst (for_each (loop_body globals) [report_run] world2))))
  = store (fst (for_each (loop_body globals) [report_run] world2)).
Proof.
  destruct (C9_failure_ends_the_loop globals [report_run] [report_run] deleted_run
              world2
              (fst (for_each (loop_body globals) [report_run] world2))
              (fst (loop_body globals deleted_run
                      (fst (for_each (loop_body globals) [report_run] world2))))
              CommError) as [Hloop Hstore].
  - vm_compute; reflexivity.
  - vm_compute; reflexivity.
  - rewrite Hloop. split; [reflexivity | exact Hstore].
Defined.

End MfuBackfill.

(** ** The named inputs in binary64 *)

(** At the inputs of the examples the floating-point evaluation gives
    the counts of the rational model. *)
Module Binary64Check.
Import PrimFloat.
#[local] Set Warnings "-inexact-float".

Example default_val_frequency :
  Binary64.int (PrimFloat.mul (Binary64.of_int 10000000) 0.05%float) = Some 500000.
Proof. vm_compute. reflexivity. Qed.

Example default_optimizer_steps :
  Binary64.int (PrimFloat.div (Binary64.of_int 10000000) (Binary64.of_int 256))
  = Some 39062.
Proof. vm_compute. reflexivity. Qed.

Example tiny_goal_fractions :
  Binary64.int (PrimFloat.mul (Binary64.of_int 100) 0.05%float) = Some 5 /\
  Binary64.int (PrimFloat.mul (Binary64.of_int 100) 0.1%float) = Some 10.
Proof. split; vm_compute; reflexivity. Qed.

Example tiny_goal_steps :
  Binary64.int (PrimFloat.div (Binary64.of_int 100) (Binary64.of_int 256)) = Some 0 /\
  Binary64.int (PrimFloat.div (Binary64.of_int 5) (Binary64.of_int 256)) = Some 0 /\
  Binary64.int (PrimFloat.div (Binary64.of_int 10) (Binary64.of_int 256)) = Some 0.
Proof. repeat split; vm_compute; reflexivity. Qed.

(** The two fields committed for [report_run] multiply back to its
    50,000 tokens per second within 1e-9. *)
Example report_run_product :
  PrimFloat.leb
    (PrimFloat.abs (Binary64.mfu_512 * (Binary64.R_512 * Binary64.of_int 1000)
                    - Binary64.of_int 50000))
    1e-9 = true.
Proof. vm_compute. reflexivity. Qed.

End Binary64Check.

(** * Further properties *)

(** ** The schedule derivation: errors and edge cases *)

Module ScheduleFacts.

Lemma goal_units_samples (args : TrainingArgs) (per_step : Z) :
  training_goal_unit args = "samples" ->
  goal_units args per_step
  = Ok (option_map inject_Z (effective_batch_size args), inject_Z per_step).
Proof. intros Hu. unfold goal_units. rewrite Hu. reflexivity. Qed.

Lemma goal_units_tokens (args : TrainingArgs) (per_step : Z) :
  training_goal_unit args = "tokens" ->
  goal_units args per_step
  = (per_opt ← Py.mul_opt (effective_batch_size args) (max_sequence_length args);
     Ok (Some (inject_Z per_opt), inject_Z (per_step * max_sequence_length args))).
Proof. intros Hu. unfold goal_units. rewrite Hu. reflexivity. Qed.







(** Without an effective batch size in [args], a goal in samples or in
    tokens ends in [TypeError], whatever the other arguments are. *)
Theorem missing_batch_size_is_type_error (args : TrainingArgs) (per_step : Z) :
  training_goal_unit args = "samples" \/ training_goal_unit args = "tokens" ->
  effective_batch_size args = None ->
  calculate_training_constants args per_step = Raise TypeError.
Proof.
  intros [Hu | Hu] He; unfold calculate_training_constants.
  - rewrite goal_units_samples by assumption. rewrite He. reflexivity.
  - rewrite goal_units_tokens by assumption. rewrite He. reflexivity.
Qed.

Lemma missing_batch_size_is_type_error_witness :
  calculate_training_constants (__post_init__ default_args) 42 = Raise TypeError.
Proof.
  apply (missing_batch_size_is_type_error (__post_init__ default_args) 42).
  - left; reflexivity.
  - reflexivity.
Defined.





(** ** The schedule derivation: bounds and changes of unit *)























End ScheduleFacts.

(** ** Fractions of the goal: what [__post_init__] leaves *)

Module PostInitFacts.
Import ScheduleFacts.

Lemma lt_false (x y : Q) : Py.lt x y = false -> (y <= x)%Q.
Proof.
  intros E. destruct (Qlt_le_dec x y) as [Hlt | Hle]; [|exact Hle].
  apply lt_spec in Hlt. congruence.
Qed.


Lemma resolve_fraction_not_fraction (goal : Z) (v : Q) :
  (resolve_fraction goal v <= 0)%Q \/ (1 <= resolve_fraction goal v)%Q.
Proof.
  unfold resolve_fraction. destruct (Py.lt v 1) eqn:E.
  - destruct (Z_le_gt_dec (Py.int (inject_Z goal * v)) 0) as [Hle | Hgt].
    + left. replace 0%Q with (inject_Z 0) by reflexivity. now rewrite <- Zle_Qle.
    + right. replace 1%Q with (inject_Z 1) by reflexivity. rewrite <- Zle_Qle. lia.
  - right. now apply lt_false.
Qed.

(** Whatever the arguments, no schedule value is strictly between 0
    and 1 once [__post_init__] has run: nothing is left that a later
    reader could take for a fraction. *)
Theorem no_fraction_survives (args : TrainingArgs) :
  let args' := __post_init__ args in
  ((val_frequency args' <= 0)%Q \/ (1 <= val_frequency args')%Q) /\
  ((model_log_frequency args' <= 0)%Q \/ (1 <= model_log_frequency args')%Q) /\
  ((lr_warmup args' <= 0)%Q \/ (1 <= lr_warmup args')%Q).
Proof.
  intros args'. destruct (post_init_fields args) as (Ev & Em & Ew & _).
  fold args' in Ev, Em, Ew. rewrite Ev, Em, Ew.
  repeat split; apply resolve_fraction_not_fraction.
Qed.








End PostInitFacts.

(** ** The backfill: failures, reach and repetition *)

Module BackfillFacts.
Import ComputeMfu BackfillTerms BackfillExamples BackfillMore.

(** The three ways an iteration can end. *)
Lemma loop_body_cases (g : Globals) (run : Run) (w : World) :
  (exists (msl mean : Q) (tps : gmap string Q),
     config run !! "max_sequence_length" = Some (VNum msl) /\
     summary run !! "TokensPerSecond" = Some (VDict tps) /\
     tps !! "mean" = Some mean /\
     ~ (flops_per_token g (msl / 1000) == 0)%Q /\
     ~ (R g msl == 0)%Q /\
     is_Some (store w !! id run) /\
     loop_body g run w = (processed g run msl mean w, Ok tt))
  \/ (exists e : PyError, e <> CommError /\ loop_body g run w = (w, Raise e))
  \/ (exists msl mean : Q,
        store w !! id run = None /\
        loop_body g run w = (refused g run msl mean w, Raise CommError)).
Proof.
  remember (loop_body g run w) as out eqn:E.
  unfold loop_body in E. rewrite MfuBackfill.bind_lift in E. unfold getitem at 1 in E.
  destruct (config run !! "max_sequence_length") as [[msl | ?] | ] eqn:Hc;
    cbn [mbind result_bind as_num] in E;
    try (right; left; eexists; split; [|exact E]; discriminate).
  rewrite MfuBackfill.bind_lift in E.
  destruct (Py.truediv (gpu_constant g) _) as [r | e] eqn:Hdiv.
  2:{ right; left. exists e. split; [|exact E].
      unfold Py.truediv in Hdiv. destruct (Qeq_bool _ 0); congruence. }
  apply truediv_inv in Hdiv as [Hf ->].
  rewrite MfuBackfill.bind_lift in E. unfold getitem in E.
  destruct (summary run !! "TokensPerSecond") as [[? | tps] | ] eqn:Hs;
    cbn [mbind result_bind as_dict] in E;
    try (right; left; eexists; split; [|exact E]; discriminate).
  destruct (tps !! "mean") as [mean | ] eqn:Hm;
    [|right; left; eexists; split; [|exact E]; discriminate].
  rewrite MfuBackfill.bind_lift in E.
  destruct (Py.truediv (mean / 1000) _) as [m | e] eqn:Hdiv.
  2:{ right; left. exists e. split; [|exact E].
      unfold Py.truediv in Hdiv. destruct (Qeq_bool _ 0); congruence. }
  apply truediv_inv in Hdiv as [HR ->].
  unfold mbind, M_bind, summary_update in E. cbn -[Qdiv Qmult Qplus] in E.
  destruct (store w !! id run) as [prev | ] eqn:Hst.
  - left. exists msl, mean, tps. repeat split; try assumption; [eauto|].
    rewrite E. unfold processed. rewrite <- !app_assoc. reflexivity.
  - right; right. exists msl, mean. split; [reflexivity|].
    rewrite E. unfold refused. rewrite <- !app_assoc. reflexivity.
Qed.

(** An iteration that raises anything but the store's refusal leaves
    the world exactly as it found it: no line printed, no summary call,
    nothing committed.  A refusal happens only for a run the store does
    not know, and commits nothing either. *)
Theorem failed_iteration_commits_nothing
    (g : Globals) (run : Run) (w w' : World) (e : PyError) :
  loop_body g run w = (w', Raise e) ->
  (e <> CommError -> w' = w) /\
  (e = CommError -> store w !! id run = None) /\
  store w' = store w.
Proof.
  intros Hrun.
  destruct (loop_body_cases g run w)
    as [(msl & mean & tps & _ & _ & _ & _ & _ & _ & E)
       | [(e' & Hne & E) | (msl & mean & Hst & E)]];
    rewrite E in Hrun; try discriminate; injection Hrun as <- <-.
  - split; [reflexivity|]. split; [intros ->; contradiction | reflexivity].
  - split; [intros Hne; contradiction|]. split; [intros _; exact Hst | reflexivity].
Qed.

Lemma failed_iteration_commits_nothing_witness :
  (KeyError "TokensPerSecond" <> CommError ->
   fst (loop_body globals crashed_run world2) = world2) /\
  (KeyError "TokensPerSecond" = CommError -> store world2 !! "d4e5f6" = None) /\
  store (fst (loop_body globals crashed_run world2)) = store world2.
Proof.
  apply (failed_iteration_commits_nothing globals crashed_run world2
           (fst (loop_body globals crashed_run world2)) (KeyError "TokensPerSecond")).
  vm_compute; reflexivity.
Defined.

Lemma api_runs_elem (project : list Run) (wanted : list string) (run : Run) :
  run ∈ api_runs project wanted ->
  run ∈ project /\ exists t : string, t ∈ tags run /\ t ∈ wanted.
Proof.
  unfold api_runs. rewrite list_elem_of_filter. intros [Htag Hin].
  split; [exact Hin|].
  apply Is_true_true, existsb_exists in Htag as (t & Ht & Hw).
  apply existsb_exists in Hw as (t' & Ht' & E). apply String.eqb_eq in E. subst t'.
  exists t. now rewrite !list_elem_of_In.
Qed.

Lemma for_each_frame (g : Globals) (runs : list Run) (i : string) :
  (forall run : Run, run ∈ runs -> id run <> i) ->
  forall (w w' : World) (r : result unit),
    for_each (loop_body g) runs w = (w', r) ->
    store w' !! i = store w !! i /\
    exists new : list call,
      calls w' = calls w ++ new /\ Forall (fun c => call_run c <> i) new.
Proof.
  induction runs as [| run rest IH]; intros Hids w w' r Hrun.
  - injection Hrun as <- _. split; [reflexivity|].
    exists []. now rewrite app_nil_r.
  - assert (Hrun_id : id run <> i) by (apply Hids; left).
    assert (Hrest : forall run' : Run, run' ∈ rest -> id run' <> i)
      by (intros run' Hin; apply Hids; now right).
    cbn [for_each] in Hrun. unfold mbind, M_bind in Hrun.
    destruct (loop_body_cases g run w)
      as [(msl & mean & tps & _ & _ & _ & _ & _ & _ & E)
         | [(e' & Hne & E) | (msl & mean & Hst & E)]];
      rewrite E in Hrun.
    + destruct (IH Hrest _ _ _ Hrun) as (Hstore & new & Hcalls & Hnew).
      split.
      * rewrite Hstore. unfold processed. cbn [store].
        now apply lookup_insert_ne.
      * eexists. split.
        -- rewrite Hcalls. unfold processed. cbn [calls].
           rewrite <- app_assoc. reflexivity.
        -- apply Forall_app. split; [|exact Hnew].
           repeat constructor; exact Hrun_id.
    + injection Hrun as <- _. split; [reflexivity|].
      exists []. now rewrite app_nil_r.
    + injection Hrun as <- _. split; [reflexivity|].
      eexists. split; [reflexivity|]. repeat constructor; exact Hrun_id.
Qed.

(** Whether the script completes or raises, it touches only runs
    tagged for the report: for an identifier that belongs to no tagged
    run of the project, the committed summary is as before and no
    summary call is made on it. *)
Theorem only_tagged_runs_are_touched
    (project : list Run) (w w' : World) (r : result unit) (i : string) :
  compute_mfu project w = (w', r) ->
  (forall run : Run, run ∈ project -> "report" ∈ tags run -> id run <> i) ->
  store w' !! i = store w !! i /\
  exists new : list call,
    calls w' = calls w ++ new /\ Forall (fun c => call_run c <> i) new.
Proof.
  intros Hrun Huntagged. apply (for_each_frame globals _ i) in Hrun; [exact Hrun|].
  intros run Hin. apply api_runs_elem in Hin as (Hin & t & Ht & Hw).
  apply list_elem_of_In in Hw. destruct Hw as [<- | []].
  now apply Huntagged.
Qed.

Lemma only_tagged_runs_are_touched_witness :
  store (fst (compute_mfu [draft_run; report_run] world3)) !! "0d0e0f"
  = store world3 !! "0d0e0f" /\
  exists new : list call,
    calls (fst (compute_mfu [draft_run; report_run] world3)) = calls world3 ++ new /\
    Forall (fun c => call_run c <> "0d0e0f") new.
Proof.
  apply (only_tagged_runs_are_touched [draft_run; report_run] world3
           (fst (compute_mfu [draft_run; report_run] world3)) (Ok tt)).
  - vm_compute; reflexivity.
  - intros run Hin Htag. apply list_elem_of_In in Hin.
    destruct Hin as [<- | [<- | []]].
    + apply list_elem_of_In in Htag. destruct Htag as [E | []]. discriminate E.
    + discriminate.
Defined.

Lemma script_flops_pos (S : Q) : (0 <= S)%Q -> (0 < flops_per_token globals (S / 1000))%Q.
Proof.
  intros HS. unfold flops_per_token, globals.
  cbn [parameters layers heads head_dimension].
  assert (Hs : (0 <= S / 1000)%Q) by (apply Qle_shift_div_l; lra).
  assert (Hc : (0 <= 12 * 12 * 12 * (64 / 1000000))%Q) by (vm_compute; discriminate).
  pose proof (Qmult_le_0_compat _ _ Hc Hs) as Hprod.
  assert (Hp : (0 < 6 * (125000000 / 1000000000))%Q) by reflexivity.
  lra.
Qed.

(** With the constants of the script, a run with a non-negative
    sequence length and a recorded mean throughput, known to the store,
    is always processed: no division in the loop can fail, whatever
    the throughput is. *)
Theorem script_constants_never_divide_by_zero
    (run : Run) (w : World) (S mean : Q) (tps : gmap string Q)
    (prev : gmap string value) :
  config run !! "max_sequence_length" = Some (VNum S) ->
  (0 <= S)%Q ->
  summary run !! "TokensPerSecond" = Some (VDict tps) ->
  tps !! "mean" = Some mean ->
  store w !! id run = Some prev ->
  loop_body globals run w = (processed globals run S mean w, Ok tt).
Proof.
  intros Hc HS Hs Hm Hst.
  pose proof (script_flops_pos S HS) as Hflops.
  assert (HR : (0 < R globals S)%Q).
  { unfold R. apply MfuBackfill.Qdiv_pos; [reflexivity | exact Hflops]. }
  apply (MfuBackfill.loop_body_ok globals run w S mean tps); eauto; lra.
Qed.

Lemma script_constants_never_divide_by_zero_witness :
  loop_body globals idle_run world0 = (processed globals idle_run 0 0 world0, Ok tt).
Proof.
  apply (script_constants_never_divide_by_zero idle_run world0 0 0
           {[ "mean" := 0%Q ]} (summary report_run)).
  - reflexivity.
  - vm_compute; discriminate.
  - reflexivity.
  - reflexivity.
  - reflexivity.
Defined.

Lemma committed_processed (g : Globals) (run : Run) (msl mean : Q) (w : World) :
  committed (processed g run msl mean w) (id run) "mean_mfu" = Some (mfu g msl mean) /\
  committed (processed g run msl mean w) (id run) "max_tokens_theoretical"
  = Some (R g msl * 1000)%Q.
Proof.
  unfold committed. rewrite MfuBackfill.processed_store. split.
  - rewrite lookup_insert_ne by discriminate. now rewrite lookup_insert_eq.
  - now rewrite lookup_insert_eq.
Qed.

(** Running the loop body again on a run fetched afresh (its summary
    now being the committed one) goes through and leaves the store as
    the first pass left it. *)
Theorem second_pass_changes_nothing
    (g : Globals) (run : Run) (w w1 : World) (s1 : gmap string value) :
  loop_body g run w = (w1, Ok tt) ->
  store w1 !! id run = Some s1 ->
  exists w2 : World,
    loop_body g (set_summary s1 run) w1 = (w2, Ok tt) /\ store w2 = store w1.
Proof.
  intros Hrun Hs1.
  apply MfuBackfill.loop_body_inv in Hrun
    as (msl & mean & tps & Hc & Hs & Hm & Hf & HR & Hst & ->).
  rewrite MfuBackfill.processed_store in Hs1. injection Hs1 as <-.
  eexists. split.
  - apply (MfuBackfill.loop_body_ok g _ _ msl mean tps); try assumption.
    + cbn [summary set_summary]. rewrite !lookup_insert_ne by discriminate. exact Hs.
    + cbn [id set_summary]. rewrite MfuBackfill.processed_store. eauto.
  - unfold processed. cbn [store id summary set_summary].
    set (peak := VNum (R g msl * 1000)%Q). set (u := VNum (mfu g msl mean)).
    assert (E : <["max_tokens_theoretical" := peak]>
                  (<["mean_mfu" := u]>
                     (<["max_tokens_theoretical" := peak]>
                        (<["mean_mfu" := u]> (summary run))))
                = <["max_tokens_theoretical" := peak]>
                    (<["mean_mfu" := u]> (summary run))).
    { apply map_eq. intros k.
      destruct (decide (k = "max_tokens_theoretical")) as [-> | Hk1];
        [by simplify_map_eq|].
      destruct (decide (k = "mean_mfu")) as [-> | Hk2]; by simplify_map_eq. }
    rewrite E. apply insert_insert_eq.
Qed.

Lemma second_pass_changes_nothing_witness :
  exists w2 : World,
    loop_body globals
      (set_summary
         (<["max_tokens_theoretical" := VNum (R globals 512 * 1000)%Q]>
            (<["mean_mfu" := VNum (mfu globals 512 50000)]> (summary report_run)))
         report_run)
      (processed globals report_run 512 50000 world0) = (w2, Ok tt) /\
    store w2 = store (processed globals report_run 512 50000 world0).
Proof.
  apply (second_pass_changes_nothing globals report_run world0).
  - vm_compute; reflexivity.
  - vm_compute; reflexivity.
Defined.

(** ** The backfill: how the two committed numbers move *)

(** For a processed run with a positive committed peak, the committed
    MFU exceeds 1 exactly when the recorded throughput exceeds the
    peak, and it is positive exactly when the throughput is. *)
Theorem mfu_above_one_iff_over_peak (g : Globals) (run : Run) (w w' : World) :
  loop_body g run w = (w', Ok tt) ->
  exists (tps : gmap string Q) (mean u peak : Q),
    summary run !! "TokensPerSecond" = Some (VDict tps) /\
    tps !! "mean" = Some mean /\
    committed w' (id run) "mean_mfu" = Some u /\
    committed w' (id run) "max_tokens_theoretical" = Some peak /\
    ((0 < peak)%Q ->
     ((1 < u)%Q <-> (peak < mean)%Q) /\ ((0 < u)%Q <-> (0 < mean)%Q)).
Proof.
  intros Hrun.
  apply MfuBackfill.loop_body_inv in Hrun
    as (msl & mean & tps & _ & Hs & Hm & _ & HR & _ & ->).
  destruct (committed_processed g run msl mean w) as [Hu Hp].
  exists tps, mean, (mfu g msl mean), (R g msl * 1000)%Q.
  repeat (split; [assumption|]).
  intros Hpos.
  assert (E : (mfu g msl mean * (R g msl * 1000) == mean)%Q)
    by (unfold mfu; field; exact HR).
  set (u := mfu g msl mean) in *. set (p := (R g msl * 1000)%Q) in *.
  split; split.
  - intros Hu1. rewrite <- E. rewrite <- (Qmult_1_l p) at 1.
    now apply Qmult_lt_r.
  - intros Hlt. rewrite <- E in Hlt. rewrite <- (Qmult_1_l p) in Hlt at 1.
    now apply Qmult_lt_r in Hlt.
  - intros Hu0. rewrite <- E. now apply Qmult_lt_0_compat.
  - intros Hm0. rewrite <- E in Hm0. rewrite <- (Qmult_0_l p) in Hm0.
    now apply Qmult_lt_r in Hm0.
Qed.

Lemma mfu_above_one_iff_over_peak_witness :
  exists (tps : gmap string Q) (mean u peak : Q),
    summary overdriven_run !! "TokensPerSecond" = Some (VDict tps) /\
    tps !! "mean" = Some mean /\
    committed (fst (loop_body globals overdriven_run world0)) "a1b2c3" "mean_mfu"
    = Some u /\
    committed (fst (loop_body globals overdriven_run world0)) "a1b2c3"
      "max_tokens_theoretical" = Some peak /\
    ((0 < peak)%Q ->
     ((1 < u)%Q <-> (peak < mean)%Q) /\ ((0 < u)%Q <-> (0 < mean)%Q)).
Proof.
  apply (mfu_above_one_iff_over_peak globals overdriven_run world0
           (fst (loop_body globals overdriven_run world0))).
  vm_compute; reflexivity.
Defined.

Lemma flops_with_gpu_constant (c : Q) (g : Globals) (s : Q) :
  flops_per_token (with_gpu_constant c g) s = flops_per_token g s.
Proof. reflexivity. Qed.

(** The hardware constant enters linearly: had the script been run
    with [c] times its hardware constant, a processed run would have
    been processed as well, with [c] times the committed peak and the
    committed MFU divided by [c]. *)
Theorem peak_scales_with_hardware_constant
    (g : Globals) (c : Q) (run : Run) (w w1 : World) :
  ~ (c == 0)%Q ->
  loop_body g run w = (w1, Ok tt) ->
  exists (w2 : World) (peak1 u1 peak2 u2 : Q),
    loop_body (with_gpu_constant (c * gpu_constant g) g) run w = (w2, Ok tt) /\
    committed w1 (id run) "max_tokens_theoretical" = Some peak1 /\
    committed w1 (id run) "mean_mfu" = Some u1 /\
    committed w2 (id run) "max_tokens_theoretical" = Some peak2 /\
    committed w2 (id run) "mean_mfu" = Some u2 /\
    (peak2 == c * peak1)%Q /\ (u2 == u1 / c)%Q.
Proof.
  intros Hc Hrun.
  apply MfuBackfill.loop_body_inv in Hrun
    as (msl & mean & tps & Hcfg & Hs & Hm & Hf & HR & Hst & ->).
  set (g' := with_gpu_constant (c * gpu_constant g) g).
  assert (ER : (R g' msl == c * R g msl)%Q).
  { unfold R, g'. rewrite flops_with_gpu_constant.
    cbn [gpu_constant with_gpu_constant]. field. exact Hf. }
  assert (HR' : ~ (R g' msl == 0)%Q).
  { rewrite ER. intros E. apply Qmult_integral in E. tauto. }
  destruct (committed_processed g run msl mean w) as [Hu1 Hp1].
  destruct (committed_processed g' run msl mean w) as [Hu2 Hp2].
  exists (processed g' run msl mean w), (R g msl * 1000)%Q, (mfu g msl mean),
         (R g' msl * 1000)%Q, (mfu g' msl mean).
  repeat split; try assumption.
  - now apply (MfuBackfill.loop_body_ok g' run w msl mean tps).
  - rewrite ER. ring.
  - unfold mfu. rewrite ER. field. split; assumption.
Qed.

Lemma peak_scales_with_hardware_constant_witness :
  exists (w2 : World) (peak1 u1 peak2 u2 : Q),
    loop_body (with_gpu_constant (2 * gpu_constant globals) globals) report_run world0
    = (w2, Ok tt) /\
    committed (fst (loop_body globals report_run world0)) "a1b2c3"
      "max_tokens_theoretical" = Some peak1 /\
    committed (fst (loop_body globals report_run world0)) "a1b2c3" "mean_mfu"
    = Some u1 /\
    committed w2 "a1b2c3" "max_tokens_theoretical" = Some peak2 /\
    committed w2 "a1b2c3" "mean_mfu" = Some u2 /\
    (peak2 == 2 * peak1)%Q /\ (u2 == u1 / 2)%Q.
Proof.
  apply (peak_scales_with_hardware_constant globals 2 report_run world0
           (fst (loop_body globals report_run world0))).
  - vm_compute; discriminate.
  - vm_compute; reflexivity.
Defined.

Lemma flops_increasing (g : Globals) (s1 s2 : Q) :
  (0 < layers g)%Q -> (0 < heads g)%Q -> (0 < head_dimension g)%Q ->
  (s1 < s2)%Q -> (flops_per_token g s1 < flops_per_token g s2)%Q.
Proof.
  intros Hl Hh Hd Hlt. unfold flops_per_token.
  assert (H1 : (0 < 12 * layers g)%Q) by lra.
  pose proof (Qmult_lt_0_compat _ _ H1 Hh) as H2.
  pose proof (Qmult_lt_0_compat _ _ H2 Hd) as H3.
  pose proof (proj2 (Qmult_lt_l s1 s2 _ H3) Hlt). lra.
Qed.

Lemma quotient_decreasing (c f1 f2 : Q) :
  (0 < c)%Q -> (0 < f1)%Q -> (f1 < f2)%Q -> (c / f2 < c / f1)%Q.
Proof.
  intros Hc Hf1 Hlt.
  assert (Hf2 : (0 < f2)%Q) by lra.
  assert (Hk : (0 < c / (f1 * f2))%Q)
    by (apply MfuBackfill.Qdiv_pos; [exact Hc | now apply Qmult_lt_0_compat]).
  assert (E2 : (c / f2 == c / (f1 * f2) * f1)%Q) by (field; split; lra).
  assert (E1 : (c / f1 == c / (f1 * f2) * f2)%Q) by (field; split; lra).
  rewrite E1, E2. now apply Qmult_lt_l.
Qed.

(** With positive constants, and all else equal, a longer sequence
    length lowers the committed peak and raises the committed MFU. *)
Theorem longer_sequences_lower_the_peak
    (g : Globals) (run1 run2 : Run) (w1 w2 : World) (S1 S2 mean : Q)
    (tps1 tps2 : gmap string Q) (prev1 prev2 : gmap string value) :
  (0 < gpu_constant g)%Q -> (0 < parameters g)%Q -> (0 < layers g)%Q ->
  (0 < heads g)%Q -> (0 < head_dimension g)%Q ->
  config run1 !! "max_sequence_length" = Some (VNum S1) ->
  config run2 !! "max_sequence_length" = Some (VNum S2) ->
  (0 < S1)%Q -> (S1 < S2)%Q ->
  summary run1 !! "TokensPerSecond" = Some (VDict tps1) ->
  summary run2 !! "TokensPerSecond" = Some (VDict tps2) ->
  tps1 !! "mean" = Some mean -> tps2 !! "mean" = Some mean -> (0 < mean)%Q ->
  store w1 !! id run1 = Some prev1 -> store w2 !! id run2 = Some prev2 ->
  exists (w1' w2' : World) (peak1 peak2 u1 u2 : Q),
    loop_body g run1 w1 = (w1', Ok tt) /\
    loop_body g run2 w2 = (w2', Ok tt) /\
    committed w1' (id run1) "max_tokens_theoretical" = Some peak1 /\
    committed w2' (id run2) "max_tokens_theoretical" = Some peak2 /\
    committed w1' (id run1) "mean_mfu" = Some u1 /\
    committed w2' (id run2) "mean_mfu" = Some u2 /\
    (peak2 < peak1)%Q /\ (u1 < u2)%Q.
Proof.
  intros HC HP HL HH Hd Hc1 Hc2 HS1 HS12 Hs1 Hs2 Hm1 Hm2 Hmean Hst1 Hst2.
  assert (Hs1' : (0 < S1 / 1000)%Q) by (apply MfuBackfill.Qdiv_pos; lra).
  assert (Hs2' : (0 < S2 / 1000)%Q) by (apply MfuBackfill.Qdiv_pos; lra).
  assert (Hs12 : (S1 / 1000 < S2 / 1000)%Q).
  { unfold Qdiv. apply Qmult_lt_r; [reflexivity | exact HS12]. }
  pose proof (MfuBackfill.flops_per_token_pos g _ HP HL HH Hd Hs1') as Hf1.
  pose proof (MfuBackfill.flops_per_token_pos g _ HP HL HH Hd Hs2') as Hf2.
  pose proof (flops_increasing g _ _ HL HH Hd Hs12) as Hf12.
  assert (HR1 : (0 < R g S1)%Q) by (unfold R; now apply MfuBackfill.Qdiv_pos).
  assert (HR2 : (0 < R g S2)%Q) by (unfold R; now apply MfuBackfill.Qdiv_pos).
  assert (HR12 : (R g S2 < R g S1)%Q) by (unfold R; now apply quotient_decreasing).
  destruct (committed_processed g run1 S1 mean w1) as [Hu1 Hp1].
  destruct (committed_processed g run2 S2 mean w2) as [Hu2 Hp2].
  exists (processed g run1 S1 mean w1), (processed g run2 S2 mean w2),
         (R g S1 * 1000)%Q, (R g S2 * 1000)%Q, (mfu g S1 mean), (mfu g S2 mean).
  repeat split; try assumption.
  - apply (MfuBackfill.loop_body_ok g run1 w1 S1 mean tps1); eauto; lra.
  - apply (MfuBackfill.loop_body_ok g run2 w2 S2 mean tps2); eauto; lra.
  - lra.
  - unfold mfu. apply quotient_decreasing; [|assumption..].
    apply MfuBackfill.Qdiv_pos; lra.
Qed.

Lemma longer_sequences_lower_the_peak_witness :
  exists (w1' w2' : World) (peak1 peak2 u1 u2 : Q),
    loop_body globals report_run world0 = (w1', Ok tt) /\
    loop_body globals long_run world0 = (w2', Ok tt) /\
    committed w1' "a1b2c3" "max_tokens_theoretical" = Some peak1 /\
    committed w2' "a1b2c3" "max_tokens_theoretical" = Some peak2 /\
    committed w1' "a1b2c3" "mean_mfu" = Some u1 /\
    committed w2' "a1b2c3" "mean_mfu" = Some u2 /\
    (peak2 < peak1)%Q /\ (u1 < u2)%Q.
Proof.
  apply (longer_sequences_lower_the_peak globals report_run long_run world0 world0
           512 1024 50000 {[ "mean" := 50000%Q ]} {[ "mean" := 50000%Q ]}
           (summary report_run) (summary report_run)).
  - reflexivity.
  - reflexivity.
  - reflexivity.
  - reflexivity.
  - reflexivity.
  - reflexivity.
  - reflexivity.
  - reflexivity.
  - reflexivity.
  - reflexivity.
  - reflexivity.
  - reflexivity.
  - reflexivity.
  - reflexivity.
  - reflexivity.
  - reflexivity.
Defined.

(** ** The backfill as a whole *)



Lemma ready_iff_processed (g : Globals) (w : World) (run : Run) :
  ready g w run <-> exists w' : World, loop_body g run w = (w', Ok tt).
Proof.
  split.
  - intros (msl & mean & tps & Hc & Hs & Hm & Hf & HR & Hst).
    eexists. now apply (MfuBackfill.loop_body_ok g run w msl mean tps).
  - intros (w' & Hrun).
    apply MfuBackfill.loop_body_inv in Hrun
      as (msl & mean & tps & Hc & Hs & Hm & Hf & HR & Hst & _).
    now exists msl, mean, tps.
Qed.

Lemma ready_after (g : Globals) (w : World) (done : Run) (msl mean : Q) (run : Run) :
  is_Some (store w !! id done) ->
  ready g (processed g done msl mean w) run <-> ready g w run.
Proof.
  intros Hknown.
  assert (Hdom : is_Some (store (processed g done msl mean w) !! id run)
                 <-> is_Some (store w !! id run)).
  { unfold processed. cbn [store]. rewrite lookup_insert_is_Some.
    split.
    - intros [E | [_ H]]; [now rewrite <- E | exact H].
    - intros H. destruct (decide (id done = id run)); [now left | now right]. }
  unfold ready. split; intros (m & a & tps & Hc & Hs & Hm & Hf & HR & Hst);
    exists m, a, tps; repeat split; try assumption; now apply Hdom.
Qed.

(** The loop completes exactly when every run, judged against the
    store as it was at the start, has its two numbers, yields non-zero
    divisors and is known to the store: processing one run never makes
    another one fail or succeed. *)
Theorem completes_iff_every_run_ready (g : Globals) (runs : list Run) (w : World) :
  (exists w' : World, for_each (loop_body g) runs w = (w', Ok tt))
  <-> Forall (ready g w) runs.
Proof.
  revert w. induction runs as [| run rest IH]; intros w.
  - split; [constructor | intros _; now exists w].
  - split.
    + intros (w' & Hrun).
      apply MfuBackfill.for_each_cons_ok in Hrun as (w1 & Hbody & Hrest).
      pose proof Hbody as Hinv.
      apply MfuBackfill.loop_body_inv in Hinv
        as (msl & mean & tps & _ & _ & _ & _ & _ & Hst & ->).
      constructor.
      * apply ready_iff_processed. eauto.
      * assert (Hall : Forall (ready g (processed g run msl mean w)) rest)
          by (apply IH; eauto).
        eapply Forall_impl; [exact Hall|].
        intros r Hr. now apply (ready_after g w run msl mean r).
    + intros Hall. inversion Hall as [| ? ? Hrun Hrest]; subst.
      pose proof Hrun as (msl & mean & tps & Hc & Hs & Hm & Hf & HR & Hst).
      pose proof (MfuBackfill.loop_body_ok g run w msl mean tps Hc Hs Hm Hf HR Hst)
        as Hbody.
      assert (Hrest' : Forall (ready g (processed g run msl mean w)) rest).
      { eapply Forall_impl; [exact Hrest|].
        intros r Hr. now apply (ready_after g w run msl mean r). }
      apply IH in Hrest' as (w' & Hloop). exists w'.
      cbn [for_each]. unfold mbind, M_bind. rewrite Hbody. exact Hloop.
Qed.

End BackfillFacts.

(** ** Devices *)

Module DeviceFacts.
Import Devices.

Lemma post_init_ids (raw : HardwareArgs) :
  cuda_device_ids (fst (__post_init__ raw)) = cuda_device_ids raw /\
  (cuda_device_ids raw <> [] ->
   num_devices (fst (__post_init__ raw)) = len (cuda_device_ids raw)).
Proof.
  unfold __post_init__. destruct (cuda_device_ids raw) eqn:E; cbn.
  - split; [exact E | congruence].
  - split; [reflexivity | intros _; reflexivity].
Qed.

Lemma len_cons_pos (x : Z) (ids : list Z) : 0 < len (x :: ids).
Proof. unfold len. cbn [length]. lia. Qed.

Lemma specify_with_ids (host : Host) (args : HardwareArgs) :
  cuda_device_ids args <> [] ->
  num_devices args = len (cuda_device_ids args) ->
  specify_auto_arguments host args
  = if cuda_device_count host <? len (cuda_device_ids args)
    then Raise (ValueError ("Requested " +:+ pretty (len (cuda_device_ids args))
                            +:+ " CUDA GPUs but only "
                            +:+ pretty (cuda_device_count host)
                            +:+ " are available."))
    else Ok {| accelerator := if String.eqb (accelerator args) "auto"
                              then choose_auto_accelerator host
                              else accelerator args;
               num_devices := len (cuda_device_ids args);
               cuda_device_ids := cuda_device_ids args |}.
Proof.
  intros Hids Hnum. destruct args as [acc n ids]. cbn in *. subst n.
  destruct ids as [| x ids]; [contradiction|].
  pose proof (len_cons_pos x ids) as Hpos.
  unfold specify_auto_arguments. cbn [accelerator num_devices cuda_device_ids].
  destruct (String.eqb acc "auto"); cbn [accelerator num_devices cuda_device_ids];
    (destruct (Z.eqb_spec (len (x :: ids)) (-1)) as [E | _]; [lia|]);
    cbn [accelerator num_devices cuda_device_ids];
    destruct (cuda_device_count host <? len (x :: ids)); reflexivity.
Qed.

Lemma specify_without_ids (host : Host) (args : HardwareArgs) :
  cuda_device_ids args = [] ->
  exists args' : HardwareArgs,
    specify_auto_arguments host args = Ok args' /\
    cuda_device_ids args' = [].
Proof.
  intros Hids. destruct args as [acc n ids]. cbn in Hids. subst ids.
  unfold specify_auto_arguments. cbn [accelerator num_devices cuda_device_ids].
  destruct (String.eqb acc "auto"); cbn [accelerator num_devices cuda_device_ids];
    destruct (n =? -1); cbn [accelerator num_devices cuda_device_ids];
    eexists; split; reflexivity.
Qed.

(** Whatever was given as [--num_devices] and whatever the host
    detects, once [main] has resolved the arguments the number of
    devices the trainer is asked for equals [args.num_devices], the
    number the batch-size logic works with. *)
Theorem trainer_devices_match_num_devices
    (host : Host) (raw args : HardwareArgs) :
  specify_auto_arguments host (fst (__post_init__ raw)) = Ok args ->
  requested (trainer_devices args) = num_devices args.
Proof.
  intros Hrun. destruct (post_init_ids raw) as [Hids Hnum].
  destruct (cuda_device_ids raw) as [| x ids] eqn:E.
  - destruct (specify_without_ids host _ Hids) as (args' & Hok & Hnone).
    rewrite Hok in Hrun. injection Hrun as <-.
    unfold trainer_devices. rewrite Hnone. reflexivity.
  - assert (Hne : cuda_device_ids (fst (__post_init__ raw)) <> [])
      by (rewrite Hids; discriminate).
    assert (Hlen : num_devices (fst (__post_init__ raw))
                   = len (cuda_device_ids (fst (__post_init__ raw))))
      by (rewrite Hids; apply Hnum; discriminate).
    rewrite (specify_with_ids host _ Hne Hlen) in Hrun.
    rewrite Hids in Hrun.
    destruct (cuda_device_count host <? len (x :: ids)); [discriminate|].
    injection Hrun as <-. reflexivity.
Qed.

Lemma trainer_devices_match_num_devices_witness :
  requested (trainer_devices
               {| accelerator := "cuda"; num_devices := 2; cuda_device_ids := [0; 2] |})
  = 2.
Proof.
  apply (trainer_devices_match_num_devices four_gpu_host two_of_four
           {| accelerator := "cuda"; num_devices := 2; cuda_device_ids := [0; 2] |}).
  reflexivity.
Defined.

(** Resolving the arguments fails exactly when more device ids were
    given than the host has CUDA devices; without explicit ids it never
    fails. *)
Theorem too_many_device_ids_iff_error (host : Host) (raw : HardwareArgs) :
  Py.raises (specify_auto_arguments host (fst (__post_init__ raw)))
  <-> cuda_device_ids raw <> []
      /\ cuda_device_count host < len (cuda_device_ids raw).
Proof.
  destruct (post_init_ids raw) as [Hids Hnum].
  destruct (cuda_device_ids raw) as [| x ids] eqn:E.
  - destruct (specify_without_ids host _ Hids) as (args' & Hok & _).
    rewrite Hok. split; [contradiction | intros [Hne _]; contradiction].
  - assert (Hne : cuda_device_ids (fst (__post_init__ raw)) <> [])
      by (rewrite Hids; discriminate).
    assert (Hlen : num_devices (fst (__post_init__ raw))
                   = len (cuda_device_ids (fst (__post_init__ raw))))
      by (rewrite Hids; apply Hnum; discriminate).
    rewrite (specify_with_ids host _ Hne Hlen).
    rewrite Hids.
    destruct (Z.ltb_spec (cuda_device_count host) (len (x :: ids))) as [Hlt | Hge].
    + split; [intros _; split; [discriminate | exact Hlt] | intros _; exact I].
    + split; [contradiction | intros [_ Hlt]; lia].
Qed.

End DeviceFacts.

(** ** Resuming and validating *)

Module ResumeFacts.
Import Resume.

Lemma resumes_dec (check : string -> option string) (args : ResumeArgs) :
  resumes check args \/ ~ resumes check args.
Proof.
  unfold resumes. destruct (checkpoint_path args) as [path | ].
  - destruct (String.eqb_spec path "") as [-> | Hne].
    + right. intros (p & [= <-] & Hp & _). contradiction.
    + destruct (resume_training args).
      * destruct (truthy (check path)) eqn:E.
        -- left. now exists path.
        -- right. intros (p & [= <-] & _ & _ & Ht). congruence.
      * right. intros (p & _ & _ & Hr & _). discriminate.
  - right. intros (p & Hp & _). discriminate.
Qed.

Lemma plan_when_resuming
    (check : string -> option string) (download : string -> string)
    (name : option string) (args : ResumeArgs) (path : string) :
  checkpoint_path args = Some path -> path <> "" ->
  resume_training args = true -> truthy (check path) = true ->
  plan check download name args
  = {| logger_args := MustResume (check path);
       model := FullCheckpoint (download path);
       steps := [Fit (Some (download path))] |}.
Proof.
  intros Hp Hne Hr Ht. destruct args as [cp rt vb vo]. cbn in Hp, Hr. subst cp rt.
  unfold plan, wandb_logger_args, construct_model, run_trainer, truthy in *.
  cbn [checkpoint_path resume_training val_before_training val_only].
  destruct (String.eqb_spec path "") as [E | _]; [contradiction|].
  cbn. rewrite Ht. cbn.
  destruct (String.eqb_spec path "") as [E | _]; [contradiction|].
  cbn. now rewrite Bool.andb_false_r.
Qed.

Lemma plan_when_not_resuming
    (check : string -> option string) (download : string -> string)
    (name : option string) (args : ResumeArgs) :
  ~ resumes check args ->
  plan check download name args
  = {| logger_args := ByName name;
       model := match checkpoint_path args with
                | Some path => if String.eqb path "" then FromScratch
                               else WeightsOnly (download path)
                | None => FromScratch
                end;
       steps := if val_before_training args
                then if val_only args then [Validate; Exit 0]
                     else [Validate; Fit None]
                else [Fit None] |}.
Proof.
  intros Hno. destruct args as [cp rt vb vo].
  assert (Hcond : match cp with
                  | Some path => truthy (Some path) && rt && truthy (check path)
                  | None => false
                  end = false).
  { destruct cp as [path | ]; [|reflexivity].
    destruct (truthy (Some path) && rt && truthy (check path)) eqn:E; [|reflexivity].
    exfalso. apply Hno. exists path.
    apply andb_prop in E as [E Ht]. apply andb_prop in E as [Hp Hr].
    cbn in *. repeat split; try assumption.
    intros ->. discriminate. }
  unfold plan, wandb_logger_args, construct_model, run_trainer.
  cbn [checkpoint_path resume_training val_before_training val_only].
  rewrite Hcond. cbn [checkpoint_path resume_training val_before_training val_only].
  destruct cp as [path | ]; cbn; [|now destruct vb, vo].
  destruct (String.eqb path ""); cbn; now destruct vb, vo.
Qed.

(** Resuming is all or nothing.  The logger joins the old W&B run with
    [resume="must"], the model is restored from the full checkpoint,
    and [fit] is handed the checkpoint, all three together, exactly
    when a non-empty checkpoint path is given, resuming is asked for
    and the path is a W&B reference; the model and [fit] then use the
    same downloaded file, and nothing is validated first. *)
Theorem resume_is_all_or_nothing
    (check : string -> option string) (download : string -> string)
    (name : option string) (args : ResumeArgs) :
  let p := plan check download name args in
  (resumes check args <-> exists id, logger_args p = MustResume id) /\
  (resumes check args <-> exists file, model p = FullCheckpoint file) /\
  (resumes check args <-> exists file, In (Fit (Some file)) (steps p)) /\
  (resumes check args ->
   exists file, model p = FullCheckpoint file /\ steps p = [Fit (Some file)]).
Proof.
  intros p. destruct (resumes_dec check args) as [Hyes | Hno].
  - pose proof Hyes as (path & Hp & Hne & Hr & Ht).
    pose proof (plan_when_resuming check download name args path Hp Hne Hr Ht) as E.
    fold p in E. rewrite E. cbn.
    repeat split; eauto.
  - pose proof (plan_when_not_resuming check download name args Hno) as E.
    fold p in E. rewrite E. cbn.
    repeat split; try contradiction.
    + intros (id & Hid). discriminate.
    + intros (file & Hfile). destruct (checkpoint_path args) as [path | ];
        [destruct (String.eqb path "")|]; discriminate.
    + intros (file & Hin).
      destruct (val_before_training args), (val_only args); cbn in Hin;
        intuition discriminate.
Qed.

(** [--val_only] ends the program after the validation only if the
    validation before training takes place: the program exits without
    training exactly when [val_only] and [val_before_training] are both
    set and the run is not resumed.  In every other case the last step
    is [fit]. *)
Theorem val_only_needs_validation_before_training
    (check : string -> option string) (download : string -> string)
    (name : option string) (args : ResumeArgs) :
  let p := plan check download name args in
  (steps p = [Validate; Exit 0]
   <-> val_only args = true /\ val_before_training args = true
       /\ ~ resumes check args) /\
  (steps p <> [Validate; Exit 0] ->
   exists (before : list step) (ckpt_path : option string),
     steps p = before ++ [Fit ckpt_path]
     /\ (before = [] \/ before = [Validate])).
Proof.
  intros p. destruct (resumes_dec check args) as [Hyes | Hno].
  - pose proof Hyes as (path & Hp & Hne & Hr & Ht).
    pose proof (plan_when_resuming check download name args path Hp Hne Hr Ht) as E.
    fold p in E. rewrite E. cbn. split.
    + split; [discriminate | intros (_ & _ & Hn); contradiction].
    + intros _. exists [], (Some (download path)). split; [reflexivity | now left].
  - pose proof (plan_when_not_resuming check download name args Hno) as E.
    fold p in E. rewrite E. cbn.
    destruct (val_before_training args), (val_only args); split;
      try (split; [discriminate | intros (? & ? & _); discriminate]);
      try (split; [intros _; repeat split; assumption | reflexivity]);
      try contradiction.
    all: intros _.
    all: try (exists [Validate], None; split; [reflexivity | now right]).
    all: exists [], None; split; [reflexivity | now left].
Qed.

(** A checkpoint path that is not a W&B reference is never resumed
    from, with or without [--resume]: only its weights are loaded,
    [fit] starts without a checkpoint, and the run is logged as a new
    one. *)
Theorem other_checkpoints_give_weights_only
    (check : string -> option string) (download : string -> string)
    (name : option string) (args : ResumeArgs) (path : string) :
  checkpoint_path args = Some path -> path <> "" ->
  truthy (check path) = false ->
  let p := plan check download name args in
  logger_args p = ByName name /\
  model p = WeightsOnly (download path) /\
  forall file : string, ~ In (Fit (Some file)) (steps p).
Proof.
  intros Hp Hne Ht p.
  assert (Hno : ~ resumes check args).
  { intros (q & Hq & _ & _ & Hc). rewrite Hp in Hq. injection Hq as <-. congruence. }
  pose proof (plan_when_not_resuming check download name args Hno) as E.
  fold p in E. rewrite E. cbn. rewrite Hp.
  destruct (String.eqb_spec path "") as [-> | _]; [contradiction|].
  repeat split.
  intros file Hin.
  destruct (val_before_training args), (val_only args); cbn in Hin;
    intuition discriminate.
Qed.

Lemma other_checkpoints_give_weights_only_witness :
  logger_args (plan wandb_only (fun p => p) (Some "gpt2") local_resume)
  = ByName (Some "gpt2") /\
  model (plan wandb_only (fun p => p) (Some "gpt2") local_resume)
  = WeightsOnly "./last.ckpt" /\
  forall file : string,
    ~ In (Fit (Some file))
         (steps (plan wandb_only (fun p => p) (Some "gpt2") local_resume)).
Proof.
  apply (other_checkpoints_give_weights_only wandb_only (fun p => p) (Some "gpt2")
           local_resume "./last.ckpt").
  - reflexivity.
  - discriminate.
  - reflexivity.
Defined.

End ResumeFacts.
